(** * cc-history-export: the ingestion pipeline

    A shallow embedding of the session model (internal/models), the JSONL
    session reader, the todo reader and the project scanner
    (internal/reader), followed by the properties the specification states
    about them. *)

From Stdlib Require Import ZArith List String Ascii Bool Lia.
From Stdlib Require Import DecimalString.
Import ListNotations.
Open Scope string_scope.
Open Scope list_scope.
Open Scope Z_scope.

(** ** The parts of the Go runtime the code relies on *)

(** [time.Time] and [time.Duration].  A [Time] is the instant it denotes,
    counted in nanoseconds from the zero time (January 1, year 1, 00:00 UTC).
    Timestamps decoded from JSON carry no monotonic clock reading, and for
    such values [IsZero], [Before], [After] and [Sub] only look at the
    instant. *)
Module GoTime.
Definition Time := Z.
Definition Duration := Z.

Definition IsZero (t : Time) : bool := t =? 0.
Definition Before (t u : Time) : bool := t <? u.
Definition After (t u : Time) : bool := u <? t.

Definition minDuration : Duration := - 2 ^ 63.
Definition maxDuration : Duration := 2 ^ 63 - 1.

(** [t.Sub(u)]: the difference, or the nearest representable duration
    when it does not fit in an int64 count of nanoseconds. *)
Definition Sub (t u : Time) : Duration :=
  let d := t - u in
  if (minDuration <=? d) && (d <=? maxDuration) then d
  else if Before t u then minDuration else maxDuration.
End GoTime.
Import GoTime.

(** Go's [int] on the 64-bit targets: addition wraps around. *)
Module GoInt.
Definition wrap (z : Z) : Z := (z + 2 ^ 63) mod 2 ^ 64 - 2 ^ 63.
Definition add (a b : Z) : Z := wrap (a + b).
End GoInt.

(** The functions of package [strings] the scanner calls. *)
Module GoStrings.
Definition len (s : string) : Z := Z.of_nat (String.length s).

Definition HasPrefix (s pre : string) : bool := String.prefix pre s.

Definition HasSuffix (s suf : string) : bool :=
  let n := String.length s in
  let k := String.length suf in
  (k <=? n)%nat && String.eqb (String.substring (n - k) k s) suf.

Definition TrimSuffix (s suf : string) : string :=
  if HasSuffix s suf
  then String.substring 0 (String.length s - String.length suf) s
  else s.

Fixpoint Contains (s sub : string) : bool :=
  HasPrefix s sub ||
  match s with
  | EmptyString => false
  | String _ s' => Contains s' sub
  end.

(** [ReplaceAll s old new] for a one-byte [old]. *)
Fixpoint ReplaceAll (s : string) (old : ascii) (new : string) : string :=
  match s with
  | EmptyString => EmptyString
  | String c s' =>
      if Ascii.eqb c old then (new ++ ReplaceAll s' old new)%string
      else String c (ReplaceAll s' old new)
  end.

Fixpoint rev_string (acc s : string) : string :=
  match s with
  | EmptyString => acc
  | String c s' => rev_string (String c acc) s'
  end.

(** [Split s sep] for a non-empty [sep]: the pieces between the leftmost,
    non-overlapping occurrences of [sep].  [skip] counts the bytes of an
    occurrence still to be stepped over, [cur] holds the current piece
    in reverse. *)
Fixpoint split_from (sep s : string) (skip : nat) (cur : string)
  : list string :=
  match s with
  | EmptyString => [rev_string EmptyString cur]
  | String c s' =>
      match skip with
      | S k => split_from sep s' k cur
      | O =>
          if HasPrefix s sep
          then rev_string EmptyString cur
               :: split_from sep s' (String.length sep - 1) EmptyString
          else split_from sep s' O (String c cur)
      end
  end.

Definition Split (s sep : string) : list string :=
  split_from sep s O EmptyString.
End GoStrings.

(** [error] values: those the runtime and the standard packages hand back,
    and those the code builds with [fmt.Errorf]. *)
Inductive error : Type :=
| ErrLib (msg : string)
| ErrMsg (msg : string)
| ErrWrap (msg : string) (cause : error)
| ErrAt (msg : string) (path : list string).

Inductive Result (A : Type) : Type :=
| Ok (a : A)
| Err (e : error).
Arguments Ok {A} a.
Arguments Err {A} e.

(** Paths are kept as their components below the scanner's base path. *)
Definition Path := list string.
Definition filepath_Join (dir : Path) (elem : string) : Path :=
  dir ++ [elem].

(** ** internal/models *)

Module Usage.
Record t := mk {
  InputTokens : Z;
  OutputTokens : Z;
  CacheCreationInputTokens : Z;
  CacheReadInputTokens : Z;
  ServiceTier : string }.
End Usage.

Module MessageContent.
Record t := mk {
  Type_ : string; Text : string; Thinking : string;
  ID : string; Name : string; Input : string }.
End MessageContent.

Module AssistantMessage.
Record t := mk {
  ID : string; Type_ : string; Role : string; Model : string;
  Content : list MessageContent.t;
  Usage : option Usage.t }.
End AssistantMessage.

Module UserMessage.
Record t := mk { Role : string; Content : string }.
End UserMessage.

Module ToolResult.
Record t := mk { ToolUseID : string; Type_ : string; Content : string }.
End ToolResult.

Definition MessageTypeUser : string := "user".
Definition MessageTypeAssistant : string := "assistant".

Module Message.
(** The dynamic value of the [Content interface{}] field. *)
Inductive content : Type :=
| Nil
| User (u : UserMessage.t)
| ToolResults (l : list ToolResult.t)
| Assistant (a : AssistantMessage.t).

Record t := mk {
  UUID : string;
  ParentUUID : option string;
  SessionID : string;
  Type_ : string;
  UserType : string;
  Timestamp : Time;
  RequestID : string;
  Version : string;
  CWD : string;
  Message : string;
  Content : content }.

Definition with_Content (m : t) (c : content) : t :=
  mk (UUID m) (ParentUUID m) (SessionID m) (Type_ m) (UserType m)
     (Timestamp m) (RequestID m) (Version m) (CWD m) (Message m) c.
End Message.

Module Todo.
Record t := mk {
  ID : string; Content : string; Status : string; Priority : string }.
End Todo.

Module TodoList.
Record t := mk {
  SessionID : string; AgentID : string; Todos : list Todo.t }.
End TodoList.

Module Session.
Record t := mk {
  ID : string;
  ProjectID : string;
  StartTime : Time;
  EndTime : Time;
  Messages : list Message.t }.

(** [&models.Session{}] *)
Definition zero : t := mk EmptyString EmptyString 0 0 [].

Definition with_ID (s : t) (id : string) : t :=
  mk id (ProjectID s) (StartTime s) (EndTime s) (Messages s).
Definition with_ProjectID (s : t) (pid : string) : t :=
  mk (ID s) pid (StartTime s) (EndTime s) (Messages s).
Definition with_StartTime (s : t) (st : Time) : t :=
  mk (ID s) (ProjectID s) st (EndTime s) (Messages s).
End Session.

Module Project.
Record t := mk {
  ID : string;
  Path : string;
  EncodedPath : string;
  Sessions : list Session.t;
  TodoLists : list TodoList.t }.
End Project.

(** session.go *)

Definition AddMessage (s : Session.t) (msg : Message.t) : Session.t :=
  let Messages := Session.Messages s ++ [msg] in
  let StartTime :=
    if IsZero (Session.StartTime s)
       || Before (Message.Timestamp msg) (Session.StartTime s)
    then Message.Timestamp msg else Session.StartTime s in
  let EndTime :=
    if After (Message.Timestamp msg) (Session.EndTime s)
    then Message.Timestamp msg else Session.EndTime s in
  Session.mk (Session.ID s) (Session.ProjectID s) StartTime EndTime Messages.

Definition GetMessageCount (s : Session.t) : Z :=
  Z.of_nat (List.length (Session.Messages s)).

Definition GetDuration (s : Session.t) : Duration :=
  if IsZero (Session.StartTime s) || IsZero (Session.EndTime s) then 0
  else Sub (Session.EndTime s) (Session.StartTime s).

(** One iteration of the loop of [GetTokenUsage]. *)
Definition addUsage (acc : Z * Z) (msg : Message.t) : Z * Z :=
  let (input, output) := acc in
  if String.eqb (Message.Type_ msg) MessageTypeAssistant
     && negb match Message.Content msg with Message.Nil => true | _ => false end
  then
    match Message.Content msg with
    | Message.Assistant assistantMsg =>
        match AssistantMessage.Usage assistantMsg with
        | Some u =>
            (GoInt.add input
               (GoInt.add (Usage.InputTokens u) (Usage.CacheReadInputTokens u)),
             GoInt.add output (Usage.OutputTokens u))
        | None => (input, output)
        end
    | _ => (input, output)
    end
  else (input, output).

Definition GetTokenUsage (s : Session.t) : Z * Z :=
  fold_left addUsage (Session.Messages s) (0, 0).

(** project.go *)

Definition NewProject (encodedPath : string) : Project.t :=
  let decodedPath := GoStrings.ReplaceAll encodedPath "-"%char "/" in
  Project.mk encodedPath decodedPath encodedPath [] [].

Definition AddSession (p : Project.t) (session : Session.t) : Project.t :=
  let session := Session.with_ProjectID session (Project.ID p) in
  Project.mk (Project.ID p) (Project.Path p) (Project.EncodedPath p)
             (Project.Sessions p ++ [session]) (Project.TodoLists p).

Definition AddTodoList (p : Project.t) (todoList : TodoList.t) : Project.t :=
  Project.mk (Project.ID p) (Project.Path p) (Project.EncodedPath p)
             (Project.Sessions p) (Project.TodoLists p ++ [todoList]).

(** ** encoding/json

    The decoder is the standard library's, not this repository's: the code
    only depends on whether [json.Unmarshal] fails and on the value it
    fills in, one method per target type the code decodes into. *)
Class JSON := {
  (** into [models.Message] *)
  Unmarshal_Message : string -> Result Message.t;
  (** into [struct { Role string; Content json.RawMessage }] *)
  Unmarshal_userPayload : string -> Result (string * string);
  (** into [string] *)
  Unmarshal_string : string -> Result string;
  (** into [[]ToolResult] *)
  Unmarshal_ToolResults : string -> Result (list ToolResult.t);
  (** into [AssistantMessage] *)
  Unmarshal_AssistantMessage : string -> Result AssistantMessage.t;
  (** into [[]*models.Todo] *)
  Unmarshal_Todos : string -> Result (list Todo.t) }.

(** ** Diagnostics written to standard error, one constructor per
    [fmt.Fprintf(os.Stderr, "Warning: ...")] of the readers. *)
Inductive Warning : Type :=
| WarnParseLine (lineNum : Z) (err : error)
| WarnParseContent (uuid : string) (err : error)
| WarnReadSessionFile (filePath : Path) (err : error)
| WarnScanSessions (project : string) (err : error)
| WarnReadTodoFile (filePath : Path) (err : error)
| WarnScanTodos (project : string) (err : error).

(** A computation that writes warnings. *)
Definition Log (A : Type) : Type := A * list Warning.

Definition ret {A} (a : A) : Log A := (a, []).
Definition bind {A B} (c : Log A) (k : A -> Log B) : Log B :=
  let (a, w) := c in let (b, w') := k a in (b, w ++ w').
Definition warn (w : Warning) : Log unit := (tt, [w]).

Notation "x <- c ;; k" := (bind c (fun x => k))
  (at level 61, c at next level, right associativity).
Notation "c ;;; k" := (bind c (fun _ => k))
  (at level 61, right associativity).

(** ** What the scanner finds on disk *)

(** What [bufio.Scanner] delivers for an opened file: the successive lines
    (terminators removed), then what [Err()] reports once [Scan] has
    returned false (a line over the 10MB buffer, a failed read). *)
Record Stream := {
  lines : list string;
  scanErr : option error }.

(** An entry of a project directory, with the outcome of [os.Open] on it. *)
Record SessionEntry := {
  seName : string;
  seIsDir : bool;
  seOpen : Result Stream }.

(** An entry of [projects], with the outcome of [os.ReadDir] on it. *)
Record ProjectEntry := {
  peName : string;
  peIsDir : bool;
  peReadDir : Result (list SessionEntry) }.

(** An entry of [todos], with the outcome of [os.ReadFile] on it. *)
Record TodoEntry := {
  teName : string;
  teIsDir : bool;
  teReadFile : Result string }.

(** A directory as [os.Stat] and [os.ReadDir] see it. *)
Inductive DirState (A : Type) : Type :=
| NotExist
| Unreadable (e : error)
| Entries (l : list A).
Arguments NotExist {A}.
Arguments Unreadable {A} e.
Arguments Entries {A} l.

(** The directory the scanner is pointed at ([basePath]). *)
Record ClaudeDir := {
  projectsDir : DirState ProjectEntry;
  todosDir : DirState TodoEntry }.

Record ScanOptions := {
  StartDate : option Time;
  EndDate : option Time;
  ProjectPaths : list string;
  IncludeTodos : bool;
  IncludeShellSnapshots : bool;
  MaxSessions : Z }.

Definition with_MaxSessions (o : ScanOptions) (m : Z) : ScanOptions :=
  {| StartDate := StartDate o; EndDate := EndDate o;
     ProjectPaths := ProjectPaths o; IncludeTodos := IncludeTodos o;
     IncludeShellSnapshots := IncludeShellSnapshots o; MaxSessions := m |}.

Section Readers.
Context {json : JSON}.

(** message.go *)
Definition ParseContent (m : Message.t) : Message.t * option error :=
  if String.eqb (Message.Type_ m) MessageTypeUser then
    if String.eqb (Message.UserType m) "external" then
      match Unmarshal_userPayload (Message.Message m) with
      | Err err => (m, Some err)
      | Ok (role, raw) =>
          match Unmarshal_string raw with
          | Ok content =>
              (Message.with_Content m
                 (Message.User (UserMessage.mk role content)), None)
          | Err _ =>
              match Unmarshal_ToolResults raw with
              | Ok toolResults =>
                  (Message.with_Content m (Message.ToolResults toolResults),
                   None)
              | Err _ => (m, None)
              end
          end
      end
    else (m, None)
  else if String.eqb (Message.Type_ m) MessageTypeAssistant then
    match Unmarshal_AssistantMessage (Message.Message m) with
    | Err err => (m, Some err)
    | Ok msg => (Message.with_Content m (Message.Assistant msg), None)
    end
  else (m, None).

(** [var msg models.Message; json.Unmarshal(line, &msg)]: the field
    [Content] is tagged [json:"-"], so it keeps the nil of the fresh
    variable. *)
Definition decodeLine (line : string) : Result Message.t :=
  match Unmarshal_Message line with
  | Ok msg => Ok (Message.with_Content msg Message.Nil)
  | Err err => Err err
  end.

(** jsonl.go: the [for scanner.Scan()] loop of [ReadSession].  [lineNum]
    counts lines of one file and never reaches the end of [int]. *)
Fixpoint readLines (ls : list string) (lineNum : Z) (session : Session.t)
  : Log Session.t :=
  match ls with
  | [] => ret session
  | line :: rest =>
      let lineNum := lineNum + 1 in
      if GoStrings.len line =? 0 then readLines rest lineNum session
      else
        match decodeLine line with
        | Err err =>
            warn (WarnParseLine lineNum err) ;;;
            readLines rest lineNum session
        | Ok msg =>
            let session :=
              if String.eqb (Session.ID session) EmptyString
                 && negb (String.eqb (Message.SessionID msg) EmptyString)
              then Session.with_ID session (Message.SessionID msg)
              else session in
            let (msg, perr) := ParseContent msg in
            match perr with
            | Some err => warn (WarnParseContent (Message.UUID msg) err)
            | None => ret tt
            end ;;;
            readLines rest lineNum (AddMessage session msg)
        end
  end.

Definition ReadSession (file : Result Stream) : Log (Result Session.t) :=
  match file with
  | Err err => ret (Err (ErrWrap "failed to open file" err))
  | Ok f =>
      session <- readLines (lines f) 0 Session.zero ;;
      match scanErr f with
      | Some err => ret (Err (ErrWrap "error reading file" err))
      | None =>
          if Z.of_nat (List.length (Session.Messages session)) =? 0
          then ret (Err (ErrMsg "no messages found in file"))
          else ret (Ok session)
      end
  end.

(** todos.go *)
Definition TodoReader_Read (file : Result string) : Result (list Todo.t) :=
  match file with
  | Err err => Err (ErrWrap "failed to read todo file" err)
  | Ok content =>
      match Unmarshal_Todos content with
      | Err err => Err (ErrWrap "failed to parse todo JSON" err)
      | Ok todos => Ok todos
      end
  end.
End Readers.

(** ** scanner.go *)

(** How the body of the session loop of [ScanProjects] is left: by its
    [return projects, nil], or by running to the end of the slice. *)
Inductive Flow : Type :=
| Return (project : Project.t)
| Next (project : Project.t) (sessionCount : Z).

Section Scanner.
Context {json : JSON}.
Variable options : ScanOptions.

Definition shouldProcessProject (encodedPath : string) : bool :=
  if Z.of_nat (List.length (ProjectPaths options)) =? 0 then true
  else
    let decodedPath := GoStrings.ReplaceAll encodedPath "-"%char "/" in
    existsb (fun filterPath => GoStrings.Contains decodedPath filterPath)
            (ProjectPaths options).

Definition shouldIncludeSession (session : Session.t) : bool :=
  if match StartDate options with
     | Some start => Before (Session.EndTime session) start
     | None => false
     end
  then false
  else if match EndDate options with
          | Some end_ => After (Session.EndTime session) end_
          | None => false
          end
  then false
  else true.

(** The loop of [scanProjectSessions] over the directory entries. *)
Fixpoint sessionFiles (projectPath : Path) (projectID : string)
    (entries : list SessionEntry) (sessions : list Session.t)
  : Log (list Session.t) :=
  match entries with
  | [] => ret sessions
  | entry :: rest =>
      if seIsDir entry || negb (GoStrings.HasSuffix (seName entry) ".jsonl")
      then sessionFiles projectPath projectID rest sessions
      else
        let filePath := filepath_Join projectPath (seName entry) in
        r <- ReadSession (seOpen entry) ;;
        match r with
        | Err err =>
            warn (WarnReadSessionFile filePath err) ;;;
            sessionFiles projectPath projectID rest sessions
        | Ok session =>
            let session := Session.with_ProjectID session projectID in
            sessionFiles projectPath projectID rest (sessions ++ [session])
        end
  end.

Definition scanProjectSessions (projectPath : Path) (projectID : string)
    (dir : Result (list SessionEntry)) : Log (Result (list Session.t)) :=
  match dir with
  | Err err => ret (Err err)
  | Ok entries =>
      sessions <- sessionFiles projectPath projectID entries [] ;;
      ret (Ok sessions)
  end.

(** The loop of [scanProjectTodos] over the entries of [todos]. *)
Fixpoint todoFiles (todosPath : Path) (entries : list TodoEntry)
    (todoLists : list TodoList.t) : Log (list TodoList.t) :=
  match entries with
  | [] => ret todoLists
  | entry :: rest =>
      if teIsDir entry || negb (GoStrings.HasSuffix (teName entry) ".json")
      then todoFiles todosPath rest todoLists
      else
        match GoStrings.Split (teName entry) "-agent-" with
        | [sessionID; part1] =>
            let filePath := filepath_Join todosPath (teName entry) in
            match TodoReader_Read (teReadFile entry) with
            | Err err =>
                warn (WarnReadTodoFile filePath err) ;;;
                todoFiles todosPath rest todoLists
            | Ok todos =>
                if 0 <? Z.of_nat (List.length todos) then
                  let agentID := GoStrings.TrimSuffix part1 ".json" in
                  let todoList := TodoList.mk sessionID agentID todos in
                  todoFiles todosPath rest (todoLists ++ [todoList])
                else todoFiles todosPath rest todoLists
            end
        | _ => todoFiles todosPath rest todoLists
        end
  end.

Definition scanProjectTodos (fs : ClaudeDir) (projectID : string)
  : Log (Result (list TodoList.t)) :=
  let todosPath := filepath_Join [] "todos" in
  match todosDir fs with
  | NotExist => ret (Ok [])
  | Unreadable err => ret (Err err)
  | Entries entries =>
      todoLists <- todoFiles todosPath entries [] ;;
      ret (Ok todoLists)
  end.

(** The loop "apply date filters and session limit" of [ScanProjects].
    [sessionCount] is bounded by the number of sessions held in memory
    and, under a limit, by the limit: it never reaches the end of [int]. *)
Fixpoint addSessions (sessions : list Session.t) (project : Project.t)
    (sessionCount : Z) : Flow :=
  match sessions with
  | [] => Next project sessionCount
  | session :: rest =>
      if shouldIncludeSession session then
        let project := AddSession project session in
        let sessionCount := sessionCount + 1 in
        if (0 <? MaxSessions options)
           && (MaxSessions options <=? sessionCount)
        then Return project
        else addSessions rest project sessionCount
      else addSessions rest project sessionCount
  end.

(** The block "scan todos if requested" of [ScanProjects]. *)
Definition attachTodos (fs : ClaudeDir) (entryName : string)
    (project : Project.t) : Log Project.t :=
  if IncludeTodos options then
    t <- scanProjectTodos fs (Project.ID project) ;;
    match t with
    | Err err => warn (WarnScanTodos entryName err) ;;; ret project
    | Ok todos => ret (fold_left AddTodoList todos project)
    end
  else ret project.

(** The loop of [ScanProjects] over the entries of [projects]. *)
Fixpoint projectDirs (fs : ClaudeDir) (projectsPath : Path)
    (entries : list ProjectEntry) (projects : list Project.t)
    (sessionCount : Z) : Log (list Project.t) :=
  match entries with
  | [] => ret projects
  | entry :: rest =>
      if negb (peIsDir entry)
      then projectDirs fs projectsPath rest projects sessionCount
      else if negb (shouldProcessProject (peName entry))
      then projectDirs fs projectsPath rest projects sessionCount
      else
        let project := NewProject (peName entry) in
        let projectPath := filepath_Join projectsPath (peName entry) in
        r <- scanProjectSessions projectPath (Project.ID project)
                                 (peReadDir entry) ;;
        match r with
        | Err err =>
            warn (WarnScanSessions (peName entry) err) ;;;
            projectDirs fs projectsPath rest projects sessionCount
        | Ok sessions =>
            match addSessions sessions project sessionCount with
            | Return project => ret (projects ++ [project])
            | Next project sessionCount =>
                project <- attachTodos fs (peName entry) project ;;
                let projects :=
                  if 0 <? Z.of_nat (List.length (Project.Sessions project))
                  then projects ++ [project] else projects in
                projectDirs fs projectsPath rest projects sessionCount
            end
        end
  end.

Definition ScanProjects (fs : ClaudeDir) : Log (Result (list Project.t)) :=
  let projectsPath := filepath_Join [] "projects" in
  match projectsDir fs with
  | NotExist => ret (Err (ErrAt "projects directory not found" projectsPath))
  | Unreadable err =>
      ret (Err (ErrWrap "failed to read projects directory" err))
  | Entries entries =>
      projects <- projectDirs fs projectsPath entries [] 0 ;;
      ret (Ok projects)
  end.
End Scanner.

(** ** Vocabulary of the statements *)

(** The session obtained from [&models.Session{}] by calling [AddMessage]
    on each message in turn. *)
Definition built (msgs : list Message.t) : Session.t :=
  fold_left AddMessage msgs Session.zero.

Definition timestamps (s : Session.t) : list Time :=
  map Message.Timestamp (Session.Messages s).

(** Earliest and latest of a non-empty list of instants. *)
Definition earliest (ts : list Time) : Time :=
  match ts with
  | [] => 0
  | t :: rest => fold_right Z.min t rest
  end.

Definition latest (ts : list Time) : Time :=
  match ts with
  | [] => 0
  | t :: rest => fold_right Z.max t rest
  end.

(** The usage block of an assistant message whose content was decoded. *)
Definition decodedUsage (msg : Message.t) : option Usage.t :=
  if String.eqb (Message.Type_ msg) "assistant" then
    match Message.Content msg with
    | Message.Assistant a => AssistantMessage.Usage a
    | _ => None
    end
  else None.

Definition usagesOf (msgs : list Message.t) : list Usage.t :=
  flat_map (fun msg => match decodedUsage msg with
                       | Some u => [u]
                       | None => []
                       end) msgs.

Definition usages (s : Session.t) : list Usage.t :=
  usagesOf (Session.Messages s).

(** What a usage block counts as input. *)
Definition inputOf (u : Usage.t) : Z :=
  Usage.InputTokens u + Usage.CacheReadInputTokens u.

Definition sumZ (l : list Z) : Z := fold_right Z.add 0 l.

Definition inRange (z : Z) : Prop := - 2 ^ 63 <= z <= 2 ^ 63 - 1.

(** Rewrites the cache-creation counter of a message, where it has one. *)
Definition setCacheCreation (c : Z) (msg : Message.t) : Message.t :=
  match Message.Content msg with
  | Message.Assistant a =>
      Message.with_Content msg
        (Message.Assistant
           (AssistantMessage.mk
              (AssistantMessage.ID a) (AssistantMessage.Type_ a)
              (AssistantMessage.Role a) (AssistantMessage.Model a)
              (AssistantMessage.Content a)
              (option_map
                 (fun u => Usage.mk (Usage.InputTokens u)
                                    (Usage.OutputTokens u) c
                                    (Usage.CacheReadInputTokens u)
                                    (Usage.ServiceTier u))
                 (AssistantMessage.Usage a))))
  | _ => msg
  end.

Definition allSessions (projects : list Project.t) : list Session.t :=
  flat_map Project.Sessions projects.

Definition totalSessions (projects : list Project.t) : Z :=
  Z.of_nat (List.length (allSessions projects)).



Section ReaderVocabulary.
Context {json : JSON}.

(** A line is well formed when it is not empty and decodes as a record,
    malformed when it is not empty and does not. *)
Definition wellFormed (line : string) : bool :=
  negb (GoStrings.len line =? 0)
  && match decodeLine line with Ok _ => true | Err _ => false end.


(** The records of the well-formed lines, in file order. *)
Definition records (ls : list string) : list Message.t :=
  flat_map (fun line =>
              if GoStrings.len line =? 0 then []
              else match decodeLine line with
                   | Ok msg => [msg]
                   | Err _ => []
                   end) ls.

(** The same records once their content has been decoded. *)
Definition decodedRecords (ls : list string) : list Message.t :=
  map (fun msg => fst (ParseContent msg)) (records ls).



(** The session as the reading loop leaves it after a record. *)
Definition afterRecord (s : Session.t) (msg : Message.t) : Session.t :=
  AddMessage
    (if String.eqb (Session.ID s) EmptyString
        && negb (String.eqb (Message.SessionID msg) EmptyString)
     then Session.with_ID s (Message.SessionID msg) else s)
    (fst (ParseContent msg)).

(** The first non-empty session identifier among records. *)
Definition firstSessionID (msgs : list Message.t) : string :=
  match filter (fun m => negb (String.eqb (Message.SessionID m) EmptyString)) msgs with
  | m :: _ => Message.SessionID m
  | [] => EmptyString
  end.

(** The todo list a [todos] entry gives rise to, if any. *)
Definition todoListOf (entry : TodoEntry) : option TodoList.t :=
  if teIsDir entry then None
  else if negb (GoStrings.HasSuffix (teName entry) ".json") then None
  else
    match GoStrings.Split (teName entry) "-agent-" with
    | [sessionID; part1] =>
        match TodoReader_Read (teReadFile entry) with
        | Ok (todo :: todos) =>
            Some (TodoList.mk sessionID (GoStrings.TrimSuffix part1 ".json")
                              (todo :: todos))
        | _ => None
        end
    | _ => None
    end.

Definition todoListsOf (fs : ClaudeDir) : list TodoList.t :=
  match todosDir fs with
  | Entries entries =>
      flat_map (fun e => match todoListOf e with
                         | Some tl => [tl]
                         | None => []
                         end) entries
  | _ => []
  end.
End ReaderVocabulary.

Section ScannerVocabulary.
Context {json : JSON}.
Variable options : ScanOptions.

(** The outcome of one entry of a project directory: the session read
    from it, if it is a session file that reads, and the warnings. *)
Definition sessionOf (projectPath : Path) (projectID : string)
    (entry : SessionEntry) : Log (list Session.t) :=
  if seIsDir entry || negb (GoStrings.HasSuffix (seName entry) ".jsonl")
  then ([], [])
  else
    match ReadSession (seOpen entry) with
    | (Err err, w) =>
        ([], w ++ [WarnReadSessionFile
                     (filepath_Join projectPath (seName entry)) err])
    | (Ok session, w) => ([Session.with_ProjectID session projectID], w)
    end.

(** The sessions an entry of [projects] offers to the result: those of
    its files that read and pass the date filter; nothing when the entry
    is not a directory, is filtered out by path or cannot be listed. *)
Definition candidate (projectsPath : Path) (entry : ProjectEntry)
  : option (list Session.t) :=
  if negb (peIsDir entry) then None
  else if negb (shouldProcessProject options (peName entry)) then None
  else
    match fst (scanProjectSessions
                 (filepath_Join projectsPath (peName entry))
                 (peName entry) (peReadDir entry)) with
    | Err _ => None
    | Ok sessions => Some (filter (shouldIncludeSession options) sessions)
    end.

Definition requestedTodos (fs : ClaudeDir) : list TodoList.t :=
  if IncludeTodos options then todoListsOf fs else [].

(** The project an entry gives when no session limit intervenes. *)
Definition fullProject (fs : ClaudeDir) (projectsPath : Path)
    (entry : ProjectEntry) : list Project.t :=
  match candidate projectsPath entry with
  | Some (session :: sessions) =>
      [Project.mk (peName entry)
         (GoStrings.ReplaceAll (peName entry) "-"%char "/")
         (peName entry)
         (map (fun s => Session.with_ProjectID s (peName entry))
              (session :: sessions))
         (requestedTodos fs)]
  | _ => []
  end.

Definition fullProjects (fs : ClaudeDir) (projectsPath : Path)
    (entries : list ProjectEntry) : list Project.t :=
  flat_map (fullProject fs projectsPath) entries.
End ScannerVocabulary.

(** A project reduced to its first [k] sessions, without todo lists. *)
Definition cutProject (k : nat) (p : Project.t) : Project.t :=
  Project.mk (Project.ID p) (Project.Path p) (Project.EncodedPath p)
             (firstn k (Project.Sessions p)) [].

(** The projects up to the one that brings the number of sessions to [k],
    that one cut to the sessions still needed. *)
Fixpoint capProjects (k : nat) (projects : list Project.t)
  : list Project.t :=
  match projects with
  | [] => []
  | p :: rest =>
      if (List.length (Project.Sessions p) <? k)%nat
      then p :: capProjects (k - List.length (Project.Sessions p)) rest
      else [cutProject k p]
  end.

(** ** The rest of internal/models and internal/reader *)

(** [fmt]'s verb [%d] on an [int]. *)
Definition fmt_d (n : Z) : string := NilZero.string_of_int (Z.to_int n).

(** [filepath.Base] where the separator is the slash and paths have no
    volume name.  The path is walked from its end: [dropSlashes] strips the
    trailing separators, [upToSlash] keeps what precedes the next one. *)
Module GoFilepath.
Fixpoint dropSlashes (rev_path : string) : string :=
  match rev_path with
  | String c rest =>
      if Ascii.eqb c "/"%char then dropSlashes rest else rev_path
  | EmptyString => EmptyString
  end.

Fixpoint upToSlash (rev_path : string) : string :=
  match rev_path with
  | String c rest =>
      if Ascii.eqb c "/"%char then EmptyString
      else String c (upToSlash rest)
  | EmptyString => EmptyString
  end.

Definition Base (path : string) : string :=
  if String.eqb path EmptyString then "."
  else
    let element :=
      upToSlash (dropSlashes (GoStrings.rev_string EmptyString path)) in
    if String.eqb element EmptyString then "/"
    else GoStrings.rev_string EmptyString element.
End GoFilepath.

(** session.go: the counting queries.  A counter of messages is bounded by
    the length of the slice it walks and never reaches the end of [int]. *)
Definition GetUserMessageCount (s : Session.t) : Z :=
  fold_left (fun count msg =>
               if String.eqb (Message.Type_ msg) MessageTypeUser
               then count + 1 else count)
            (Session.Messages s) 0.

Definition GetAssistantMessageCount (s : Session.t) : Z :=
  fold_left (fun count msg =>
               if String.eqb (Message.Type_ msg) MessageTypeAssistant
               then count + 1 else count)
            (Session.Messages s) 0.

(** project.go: the aggregates. *)
Definition GetSessionCount (p : Project.t) : Z :=
  Z.of_nat (List.length (Project.Sessions p)).

Definition GetTotalMessages (p : Project.t) : Z :=
  fold_left (fun total session => GoInt.add total (GetMessageCount session))
            (Project.Sessions p) 0.

(** One iteration of the loop of [GetTimeRange]. *)
Definition widen (range : Time * Time) (session : Session.t) : Time * Time :=
  let (start, end_) := range in
  (if IsZero start || Before (Session.StartTime session) start
   then Session.StartTime session else start,
   if After (Session.EndTime session) end_
   then Session.EndTime session else end_).

Definition GetTimeRange (p : Project.t) : Time * Time :=
  if Z.of_nat (List.length (Project.Sessions p)) =? 0 then (0, 0)
  else fold_left widen (Project.Sessions p) (0, 0).

Definition GetProjectName (p : Project.t) : string :=
  GoFilepath.Base (Project.Path p).

Definition GetTotalTokenUsage (p : Project.t) : Z * Z :=
  fold_left (fun (acc : Z * Z) session =>
               let (input, output) := acc in
               let (sessionInput, sessionOutput) := GetTokenUsage session in
               (GoInt.add input sessionInput, GoInt.add output sessionOutput))
            (Project.Sessions p) (0, 0).




(** scanner.go: [NewScanner] turns absent options into the zero value. *)
Definition NewScanner (options : option ScanOptions) : ScanOptions :=
  match options with
  | Some o => o
  | None =>
      {| StartDate := None; EndDate := None; ProjectPaths := [];
         IncludeTodos := false; IncludeShellSnapshots := false;
         MaxSessions := 0 |}
  end.

Section Streaming.
Context {json : JSON} {St : Type}.

(** The callback of the streaming readers is a Go closure: a function of
    the message that may update what it has captured ([St]) and may fail. *)
Variable callback : Message.t -> St -> St * option error.

(** jsonl.go: the [for scanner.Scan()] loop of [StreamJSONLMessages]; the
    error, if any, is the one the loop returns with. *)
Fixpoint streamLines (ls : list string) (lineNum : Z) (st : St)
  : Log (St * option error) :=
  match ls with
  | [] => ret (st, None)
  | line :: rest =>
      let lineNum := lineNum + 1 in
      if GoStrings.len line =? 0 then streamLines rest lineNum st
      else
        match decodeLine line with
        | Err err =>
            warn (WarnParseLine lineNum err) ;;;
            streamLines rest lineNum st
        | Ok msg =>
            let (msg, perr) := ParseContent msg in
            match perr with
            | Some err => warn (WarnParseContent (Message.UUID msg) err)
            | None => ret tt
            end ;;;
            let (st, cerr) := callback msg st in
            match cerr with
            | Some err =>
                ret (st,
                     Some (ErrWrap
                             (String.append "callback error at line "
                                            (fmt_d lineNum)) err))
            | None => streamLines rest lineNum st
            end
        end
  end.

Definition StreamJSONLMessages (reader : Stream) (st : St)
  : Log (St * option error) :=
  r <- streamLines (lines reader) 0 st ;;
  match r with
  | (st, Some err) => ret (st, Some err)
  | (st, None) =>
      match scanErr reader with
      | Some err => ret (st, Some (ErrWrap "error reading" err))
      | None => ret (st, None)
      end
  end.

Definition StreamMessages (file : Result Stream) (st : St)
  : Log (St * option error) :=
  match file with
  | Err err => ret (st, Some (ErrWrap "failed to open file" err))
  | Ok f => StreamJSONLMessages f st
  end.
End Streaming.

Section TodoReading.
Context {json : JSON}.

(** todos.go *)
Definition ReadTodoList (file : Result string) (sessionID agentID : string)
  : Result TodoList.t :=
  match TodoReader_Read file with
  | Err err => Err err
  | Ok todos => Ok (TodoList.mk sessionID agentID todos)
  end.
End TodoReading.

(** ** More vocabulary *)

(** Whether a byte occurs in a string. *)
Fixpoint occurs (c : ascii) (s : string) : bool :=
  match s with
  | EmptyString => false
  | String d rest => Ascii.eqb d c || occurs c rest
  end.

Definition isUser (msg : Message.t) : bool :=
  String.eqb (Message.Type_ msg) "user".
Definition isAssistant (msg : Message.t) : bool :=
  String.eqb (Message.Type_ msg) "assistant".

(** The latest of a list of instants and the zero time. *)
Definition latestOrZero (ts : list Time) : Time := fold_right Z.max 0 ts.

(** All messages of a project, session after session. *)
Definition allMessages (p : Project.t) : list Message.t :=
  flat_map Session.Messages (Project.Sessions p).

(** The captured state once a callback has accepted each of the messages
    in turn. *)
Definition runCallback {St : Type}
    (callback : Message.t -> St -> St * option error)
    (msgs : list Message.t) (st : St) : St :=
  fold_left (fun st m => fst (callback m st)) msgs st.

Section OfferedSessions.
Context {json : JSON}.

(** The sessions a directory entry of [projects] offers under the filters
    of [options]: none unless it is a directory that passes the path
    filter and can be listed, else the sessions read from it that pass the
    date filter. *)
Definition offered (options : ScanOptions) (entry : ProjectEntry)
  : list Session.t :=
  if peIsDir entry && shouldProcessProject options (peName entry) then
    match fst (scanProjectSessions
                 (filepath_Join (filepath_Join [] "projects") (peName entry))
                 (peName entry) (peReadDir entry)) with
    | Ok sessions => filter (shouldIncludeSession options) sessions
    | Err _ => []
    end
  else [].
End OfferedSessions.

(** A callback that keeps what it is given. *)
Definition collect (msg : Message.t) (seen : list Message.t)
  : list Message.t * option error := (seen ++ [msg], None).

(** ** Test data

    Records and files taken from the repository's tests
    (jsonl_test.go, scanner_test.go), with what [encoding/json] makes of
    them.  The table answers for these inputs only; anything else is
    reported as a syntax error, as the non-JSON line of the tests is. *)
Module Fixture.
Definition dq : string := String (ascii_of_nat 34) EmptyString.

(** JSON text, written with single quotes for double ones. *)
Definition js (s : string) : string := GoStrings.ReplaceAll s "'"%char dq.

(** 2024-01-01T10:00:00Z and five seconds later. *)
Definition t_10_00_00 : Time := 63839700000 * 10 ^ 9.
Definition t_10_00_05 : Time := 63839700005 * 10 ^ 9.

Definition userPayload : string := js "{'role':'user','content':'Hello'}".
Definition assistantPayload : string :=
  js "{'id':'asst1','type':'message','role':'assistant','model':'claude-3','content':[{'type':'text','text':'Hi there!'}],'usage':{'input_tokens':5,'output_tokens':10}}".
Definition mismatchPayload : string :=
  js "{'role':'assistant','content':'Hi'}".

Definition userLine : string :=
  js "{'uuid':'msg1','parentUuid':null,'sessionId':'session1','type':'user','userType':'external','timestamp':'2024-01-01T10:00:00Z','message':{'role':'user','content':'Hello'}}".
Definition assistantLine : string :=
  js "{'uuid':'msg2','parentUuid':'msg1','sessionId':'session1','type':'assistant','timestamp':'2024-01-01T10:00:05Z','message':{'id':'asst1','type':'message','role':'assistant','model':'claude-3','content':[{'type':'text','text':'Hi there!'}],'usage':{'input_tokens':5,'output_tokens':10}}}".
Definition anonymousLine : string :=
  js "{'uuid':'msg0','type':'user','timestamp':'2024-01-01T10:00:00Z','message':{'role':'user','content':'Hello'}}".
Definition mismatchLine : string :=
  js "{'uuid':'msg2','sessionId':'session1','type':'assistant','timestamp':'2024-01-01T10:00:05Z','message':{'role':'assistant','content':'Hi'}}".
Definition badLine : string := "not json".

Definition userRecord : Message.t :=
  Message.mk "msg1" None "session1" "user" "external" t_10_00_00
             EmptyString EmptyString EmptyString userPayload Message.Nil.
Definition assistantRecord : Message.t :=
  Message.mk "msg2" (Some "msg1") "session1" "assistant" EmptyString t_10_00_05
             EmptyString EmptyString EmptyString assistantPayload Message.Nil.
Definition anonymousRecord : Message.t :=
  Message.mk "msg0" None EmptyString "user" EmptyString t_10_00_00
             EmptyString EmptyString EmptyString userPayload Message.Nil.
Definition mismatchRecord : Message.t :=
  Message.mk "msg2" None "session1" "assistant" EmptyString t_10_00_05
             EmptyString EmptyString EmptyString mismatchPayload Message.Nil.

(** [{"uuid":"msg1"}]: a record without a timestamp. *)
Definition bareRecord : Message.t :=
  Message.mk "msg1" None EmptyString EmptyString EmptyString 0 EmptyString EmptyString EmptyString EmptyString Message.Nil.

Definition assistantMessage : AssistantMessage.t :=
  AssistantMessage.mk "asst1" "message" "assistant" "claude-3"
    [MessageContent.mk "text" "Hi there!" EmptyString EmptyString
                       EmptyString EmptyString]
    (Some (Usage.mk 5 10 0 0 EmptyString)).

Definition emptyTodos : string := "[]".
Definition oneTodo : string :=
  js "[{'id':'1','content':'Test todo','status':'pending','priority':'high'}]".

Definition syntaxError : error :=
  ErrLib "invalid character 'o' in literal null (expecting 'u')".
Definition typeError (what : string) : error :=
  ErrLib (String.append "json: cannot unmarshal " what).

Definition lookup {A} (table : list (string * A)) (default : error)
    (input : string) : Result A :=
  match find (fun kv => String.eqb (fst kv) input) table with
  | Some kv => Ok (snd kv)
  | None => Err default
  end.

Definition json : JSON := {|
  Unmarshal_Message :=
    lookup [(userLine, userRecord); (assistantLine, assistantRecord);
            (anonymousLine, anonymousRecord);
            (mismatchLine, mismatchRecord)] syntaxError;
  Unmarshal_userPayload :=
    lookup [(userPayload, ("user", js "'Hello'"))] syntaxError;
  Unmarshal_string := lookup [(js "'Hello'", "Hello")] syntaxError;
  Unmarshal_ToolResults :=
    lookup [] (typeError "string into Go value of type []models.ToolResult");
  Unmarshal_AssistantMessage :=
    lookup [(assistantPayload, assistantMessage)]
           (typeError "string into Go struct field AssistantMessage.content of type []models.MessageContent");
  Unmarshal_Todos :=
    lookup [(emptyTodos, []);
            (oneTodo, [Todo.mk "1" "Test todo" "pending" "high"])]
           syntaxError |}.

Definition stream (ls : list string) : Result Stream :=
  Ok {| lines := ls; scanErr := None |}.

Definition sessionFile (name : string) (ls : list string) : SessionEntry :=
  {| seName := name; seIsDir := false; seOpen := stream ls |}.

Definition projectDir (name : string) (files : list SessionEntry)
  : ProjectEntry :=
  {| peName := name; peIsDir := true; peReadDir := Ok files |}.

Definition todoFile (name content : string) : TodoEntry :=
  {| teName := name; teIsDir := false; teReadFile := Ok content |}.

Definition noFilter : ScanOptions :=
  {| StartDate := None; EndDate := None; ProjectPaths := [];
     IncludeTodos := true; IncludeShellSnapshots := false;
     MaxSessions := 0 |}.

(** Three projects of one session each, and one todo file. *)
Definition threeProjects : list ProjectEntry :=
  [projectDir "-Users-test-project1"
     [sessionFile "session.jsonl" [userLine; assistantLine]];
   projectDir "-Users-test-project2"
     [sessionFile "session.jsonl" [userLine; assistantLine]];
   projectDir "-Users-other-project"
     [sessionFile "session.jsonl" [userLine; assistantLine]]].

Definition archive : ClaudeDir :=
  {| projectsDir := Entries threeProjects;
     todosDir := Entries [todoFile "session1-agent-agent1.json" oneTodo] |}.

(** One project, and a todo file holding an empty array. *)
Definition archiveEmptyTodos : ClaudeDir :=
  {| projectsDir :=
       Entries [projectDir "-Users-test-project1"
                  [sessionFile "session1.jsonl" [userLine; assistantLine]]];
     todosDir :=
       Entries [todoFile "session1-agent-agent1.json" emptyTodos] |}.
End Fixture.

(** Options with every filter set, for the same archive. *)
Module FilterFixture.
Definition options : ScanOptions :=
  {| StartDate := Some Fixture.t_10_00_00;
     EndDate := Some Fixture.t_10_00_05;
     ProjectPaths := ["/Users/test/"];
     IncludeTodos := false; IncludeShellSnapshots := false;
     MaxSessions := 0 |}.

Definition projects : list Project.t :=
  match fst (@ScanProjects Fixture.json options Fixture.archive) with
  | Ok ps => ps
  | Err _ => []
  end.

Definition project : Project.t := hd (NewProject EmptyString) projects.

Definition session : Session.t :=
  hd Session.zero (Project.Sessions project).
End FilterFixture.

(** * Properties *)

(** ** Arithmetic of the runtime *)

Lemma wrap_inRange (z : Z) : inRange z -> GoInt.wrap z = z.
Proof.
  unfold inRange, GoInt.wrap. intros H.
  rewrite Z.mod_small; lia.
Qed.

Lemma wrap_add (a b : Z) :
  GoInt.wrap (GoInt.wrap a + GoInt.wrap b) = GoInt.wrap (a + b).
Proof.
  unfold GoInt.wrap. f_equal.
  replace ((a + 2 ^ 63) mod 2 ^ 64 - 2 ^ 63
           + ((b + 2 ^ 63) mod 2 ^ 64 - 2 ^ 63) + 2 ^ 63)
    with ((a + 2 ^ 63) mod 2 ^ 64 + ((b + 2 ^ 63) mod 2 ^ 64 - 2 ^ 63))
    by ring.
  rewrite Z.add_mod_idemp_l by lia.
  replace (a + 2 ^ 63 + ((b + 2 ^ 63) mod 2 ^ 64 - 2 ^ 63))
    with ((b + 2 ^ 63) mod 2 ^ 64 + a) by ring.
  rewrite Z.add_mod_idemp_l by lia.
  f_equal. ring.
Qed.

Lemma wrap_add_l (a b : Z) :
  GoInt.wrap (GoInt.wrap a + b) = GoInt.wrap (a + b).
Proof.
  unfold GoInt.wrap. f_equal.
  replace ((a + 2 ^ 63) mod 2 ^ 64 - 2 ^ 63 + b + 2 ^ 63)
    with ((a + 2 ^ 63) mod 2 ^ 64 + b) by ring.
  rewrite Z.add_mod_idemp_l by lia.
  f_equal. ring.
Qed.

Lemma Sub_exact (t u : Time) :
  minDuration <= t - u <= maxDuration -> Sub t u = t - u.
Proof.
  intros [Hl Hu]. unfold Sub.
  apply Z.leb_le in Hl. apply Z.leb_le in Hu.
  cbv zeta. rewrite Hl, Hu. reflexivity.
Qed.

(** ** Sessions *)

Lemma built_snoc (msgs : list Message.t) (msg : Message.t) :
  built (msgs ++ [msg]) = AddMessage (built msgs) msg.
Proof. unfold built. rewrite fold_left_app. reflexivity. Qed.

Lemma built_Messages (msgs : list Message.t) :
  Session.Messages (built msgs) = msgs.
Proof.
  induction msgs as [| msg msgs IH] using rev_ind.
  - reflexivity.
  - rewrite built_snoc. simpl. rewrite IH. reflexivity.
Qed.

Lemma earliest_snoc (t0 t : Time) (ts : list Time) :
  earliest ((t0 :: ts) ++ [t]) = Z.min (earliest (t0 :: ts)) t.
Proof.
  simpl. revert t0. induction ts as [| a ts IH]; intros t0; simpl.
  - apply Z.min_comm.
  - rewrite IH. lia.
Qed.

Lemma latest_snoc (t0 t : Time) (ts : list Time) :
  latest ((t0 :: ts) ++ [t]) = Z.max (latest (t0 :: ts)) t.
Proof.
  simpl. revert t0. induction ts as [| a ts IH]; intros t0; simpl.
  - apply Z.max_comm.
  - rewrite IH. lia.
Qed.

Lemma earliest_positive (ts : list Time) :
  ts <> [] -> Forall (fun t => 0 < t) ts -> 0 < earliest ts.
Proof.
  destruct ts as [| t0 ts]; [congruence |]. intros _ H.
  inversion H as [| ? ? Ht0 Hts]; subst. simpl.
  induction Hts as [| a l Ha Hl IH]; simpl; [assumption |].
  assert (Forall (fun t => 0 < t) (t0 :: l)) by (constructor; assumption).
  specialize (IH H0). lia.
Qed.

(** The bounds kept by [AddMessage] are the extremes of the timestamps,
    as long as every timestamp lies after the zero time. *)
Lemma built_bounds (msgs : list Message.t) :
  msgs <> [] ->
  Forall (fun m => 0 < Message.Timestamp m) msgs ->
  Session.StartTime (built msgs) = earliest (map Message.Timestamp msgs) /\
  Session.EndTime (built msgs) = latest (map Message.Timestamp msgs).
Proof.
  induction msgs as [| msg msgs IH] using rev_ind; [congruence |].
  intros _ Hall. apply Forall_app in Hall. destruct Hall as [Hmsgs Hmsg].
  inversion Hmsg as [| ? ? Hpos _]; subst.
  rewrite built_snoc. unfold AddMessage; simpl.
  destruct msgs as [| m0 msgs'].
  - simpl. unfold IsZero, After. simpl.
    destruct (0 <? Message.Timestamp msg) eqn:E; [auto |].
    apply Z.ltb_ge in E. lia.
  - destruct IH as [IHs IHe]; [congruence | assumption |].
    rewrite IHs, IHe. rewrite map_app.
    change (map Message.Timestamp (m0 :: msgs'))
      with (Message.Timestamp m0 :: map Message.Timestamp msgs').
    simpl (map Message.Timestamp [msg]).
    rewrite earliest_snoc, latest_snoc.
    assert (Hp : 0 < earliest (Message.Timestamp m0
                               :: map Message.Timestamp msgs')).
    { apply earliest_positive; [discriminate |].
      rewrite <- map_cons. apply Forall_map. assumption. }
    set (e := earliest _) in *. set (l := latest _).
    unfold IsZero, Before, After. split.
    + destruct (Z.eqb_spec e 0); [lia |]. simpl.
      destruct (Z.ltb_spec (Message.Timestamp msg) e); lia.
    + destruct (Z.ltb_spec l (Message.Timestamp msg)); lia.
Qed.

(** C1, as the code has it.  Whenever every appended message carries a
    timestamp after the zero time, then after each [AddMessage] the session
    owns exactly the appended messages, [StartTime] is the earliest and
    [EndTime] the latest of their timestamps; the new bounds are computed
    from the old bounds and the new timestamp alone; a session without
    messages has zero bounds and zero duration; [GetDuration] is zero when
    either bound is the zero time and [EndTime.Sub(StartTime)] otherwise,
    which is [EndTime - StartTime] whenever that fits a [Duration]. *)
Theorem AddMessage_keeps_bounds :
  forall (msgs : list Message.t) (msg : Message.t),
    Forall (fun m => 0 < Message.Timestamp m) (msgs ++ [msg]) ->
    let s := AddMessage (built msgs) msg in
    (Session.Messages s = msgs ++ [msg] /\
     Session.StartTime s = earliest (timestamps s) /\
     Session.EndTime s = latest (timestamps s)) /\
    (forall s1 s2 : Session.t,
        Session.StartTime s1 = Session.StartTime s2 ->
        Session.EndTime s1 = Session.EndTime s2 ->
        Session.StartTime (AddMessage s1 msg)
        = Session.StartTime (AddMessage s2 msg) /\
        Session.EndTime (AddMessage s1 msg)
        = Session.EndTime (AddMessage s2 msg)) /\
    (Session.Messages (built []) = [] /\
     Session.StartTime (built []) = 0 /\
     Session.EndTime (built []) = 0 /\
     GetDuration (built []) = 0) /\
    (forall s' : Session.t,
        (Session.StartTime s' = 0 \/ Session.EndTime s' = 0 ->
         GetDuration s' = 0) /\
        (Session.StartTime s' <> 0 -> Session.EndTime s' <> 0 ->
         GetDuration s' = Sub (Session.EndTime s') (Session.StartTime s') /\
         (minDuration <= Session.EndTime s' - Session.StartTime s'
          <= maxDuration ->
          GetDuration s' = Session.EndTime s' - Session.StartTime s'))).
Proof.
  intros msgs msg Hall s. subst s. rewrite <- built_snoc.
  repeat split.
  - apply built_Messages.
  - unfold timestamps. rewrite built_Messages.
    apply built_bounds; [destruct msgs; discriminate | assumption].
  - unfold timestamps. rewrite built_Messages.
    apply built_bounds; [destruct msgs; discriminate | assumption].
  - unfold AddMessage; simpl. rewrite H. reflexivity.
  - unfold AddMessage; simpl. rewrite H0. reflexivity.
  - intros [H | H]; unfold GetDuration, IsZero; rewrite H.
    + reflexivity.
    + rewrite Z.eqb_refl, orb_true_r. reflexivity.
  - unfold GetDuration, IsZero.
    apply Z.eqb_neq in H, H0. rewrite H, H0. reflexivity.
  - intros Hfit. unfold GetDuration, IsZero.
    apply Z.eqb_neq in H, H0. rewrite H, H0. simpl.
    apply Sub_exact. assumption.
Qed.

Lemma AddMessage_keeps_bounds_witness :
  Forall (fun m => 0 < Message.Timestamp m)
         ([Fixture.userRecord] ++ [Fixture.assistantRecord]) /\
  Session.StartTime (AddMessage (built [Fixture.userRecord])
                                Fixture.assistantRecord)
  = Fixture.t_10_00_00 /\
  Session.EndTime (AddMessage (built [Fixture.userRecord])
                              Fixture.assistantRecord)
  = Fixture.t_10_00_05.
Proof.
  assert (H : Forall (fun m => 0 < Message.Timestamp m)
                     ([Fixture.userRecord] ++ [Fixture.assistantRecord])).
  { repeat constructor. }
  split; [exact H |].
  destruct (AddMessage_keeps_bounds [Fixture.userRecord]
              Fixture.assistantRecord H) as [[_ [Hs He]] _].
  split; [rewrite Hs | rewrite He]; reflexivity.
Defined.

(** C1 as stated fails: a record without a timestamp followed by a dated
    one leaves [StartTime] at the later instant, although the earliest
    timestamp owned by the session is the zero time. *)
Lemma AddMessage_bounds_counterexample :
  let s := AddMessage (AddMessage Session.zero Fixture.bareRecord)
                      Fixture.assistantRecord in
  Session.Messages s = [Fixture.bareRecord; Fixture.assistantRecord] /\
  earliest (timestamps s) = 0 /\
  Session.StartTime s = Fixture.t_10_00_05 /\
  Session.StartTime s <> earliest (timestamps s).
Proof.
  cbv zeta. repeat split. vm_compute. discriminate.
Qed.

(** C2.  The date filter keeps a session exactly when its [EndTime] is not
    before the start bound (if any) and not after the end bound (if any);
    both bounds are inclusive and [StartTime] is never consulted. *)
Theorem shouldIncludeSession_EndTime_only :
  forall (o : ScanOptions) (s : Session.t),
    (shouldIncludeSession o s = true <->
     match StartDate o with
     | None => True
     | Some start => start <= Session.EndTime s
     end /\
     match EndDate o with
     | None => True
     | Some end_ => Session.EndTime s <= end_
     end) /\
    (forall st : Time,
        shouldIncludeSession o (Session.with_StartTime s st)
        = shouldIncludeSession o s).
Proof.
  intros o s. split; [| reflexivity].
  unfold shouldIncludeSession, Before, After.
  destruct (StartDate o) as [start |], (EndDate o) as [end_ |];
    repeat match goal with
           | |- context [?a <? ?b] => destruct (Z.ltb_spec a b)
           end;
    split; try tauto; try (intros; split; trivial; lia);
    try (intros [? ?]; lia); try discriminate.
Qed.

(** ** Token usage *)

Lemma addUsage_decoded (acc : Z * Z) (msg : Message.t) :
  addUsage acc msg =
  match decodedUsage msg with
  | Some u => (GoInt.add (fst acc) (GoInt.add (Usage.InputTokens u)
                                              (Usage.CacheReadInputTokens u)),
               GoInt.add (snd acc) (Usage.OutputTokens u))
  | None => acc
  end.
Proof.
  destruct acc as [input output]. unfold addUsage, decodedUsage.
  unfold MessageTypeAssistant.
  destruct (String.eqb (Message.Type_ msg) "assistant"); simpl;
    [| reflexivity].
  destruct (Message.Content msg) as [| u | l | a]; reflexivity.
Qed.

Lemma fold_addUsage (msgs : list Message.t) (a b : Z) :
  fold_left addUsage msgs (GoInt.wrap a, GoInt.wrap b) =
  (GoInt.wrap (a + sumZ (map inputOf (usagesOf msgs))),
   GoInt.wrap (b + sumZ (map Usage.OutputTokens (usagesOf msgs)))).
Proof.
  revert a b. induction msgs as [| msg msgs IH]; intros a b.
  - simpl. rewrite !Z.add_0_r. reflexivity.
  - cbn [fold_left]. rewrite addUsage_decoded.
    unfold usagesOf; cbn [flat_map]; fold (usagesOf msgs).
    destruct (decodedUsage msg) as [u |];
      cbn [fst snd app map sumZ fold_right].
    + unfold GoInt.add. rewrite wrap_add, wrap_add_l, IH.
      unfold sumZ, inputOf. rewrite !Z.add_assoc. reflexivity.
    + apply IH.
Qed.

Lemma decodedUsage_setCacheCreation (c : Z) (msg : Message.t) :
  option_map inputOf (decodedUsage (setCacheCreation c msg))
  = option_map inputOf (decodedUsage msg) /\
  option_map Usage.OutputTokens (decodedUsage (setCacheCreation c msg))
  = option_map Usage.OutputTokens (decodedUsage msg).
Proof.
  unfold setCacheCreation, decodedUsage.
  destruct msg as [? ? ? ty ? ? ? ? ? ? content]; simpl.
  destruct content as [| u | l | a]; simpl; auto.
  destruct (String.eqb ty "assistant"); auto.
  destruct (AssistantMessage.Usage a); auto.
Qed.

Lemma usagesOf_setCacheCreation (c : Z) (msgs : list Message.t) :
  map inputOf (usagesOf (map (setCacheCreation c) msgs))
  = map inputOf (usagesOf msgs) /\
  map Usage.OutputTokens (usagesOf (map (setCacheCreation c) msgs))
  = map Usage.OutputTokens (usagesOf msgs).
Proof.
  induction msgs as [| msg msgs [IHi IHo]]; simpl; [auto |].
  rewrite !map_app, IHi, IHo.
  destruct (decodedUsage_setCacheCreation c msg) as [Hi Ho].
  destruct (decodedUsage (setCacheCreation c msg)),
           (decodedUsage msg); simpl in *;
    try discriminate; split; congruence.
Qed.

(** C5.  [GetTokenUsage] returns, in the arithmetic of [int], the sum of
    [input_tokens + cache_read_input_tokens] and the sum of [output_tokens]
    over the assistant messages with a decoded usage block (the plain sums
    whenever these fit an [int]); a message that is not an assistant
    message, has undecoded content or no usage block changes nothing, and
    neither does any value of [cache_creation_input_tokens]. *)
Theorem GetTokenUsage_sums :
  forall s : Session.t,
    GetTokenUsage s
    = (GoInt.wrap (sumZ (map inputOf (usages s))),
       GoInt.wrap (sumZ (map Usage.OutputTokens (usages s)))) /\
    (inRange (sumZ (map inputOf (usages s))) ->
     fst (GetTokenUsage s) = sumZ (map inputOf (usages s))) /\
    (inRange (sumZ (map Usage.OutputTokens (usages s))) ->
     snd (GetTokenUsage s) = sumZ (map Usage.OutputTokens (usages s))) /\
    (forall (pre post : list Message.t) (msg : Message.t),
        Session.Messages s = pre ++ msg :: post ->
        Message.Type_ msg <> "assistant" \/
        Message.Content msg = Message.Nil \/
        (forall a, Message.Content msg = Message.Assistant a ->
                   AssistantMessage.Usage a = None) ->
        GetTokenUsage s
        = GetTokenUsage (Session.mk (Session.ID s) (Session.ProjectID s)
                           (Session.StartTime s) (Session.EndTime s)
                           (pre ++ post))) /\
    (forall c : Z,
        GetTokenUsage (Session.mk (Session.ID s) (Session.ProjectID s)
                         (Session.StartTime s) (Session.EndTime s)
                         (map (setCacheCreation c) (Session.Messages s)))
        = GetTokenUsage s).
Proof.
  intros s.
  assert (Hsum : forall msgs,
             fold_left addUsage msgs (0, 0)
             = (GoInt.wrap (sumZ (map inputOf (usagesOf msgs))),
                GoInt.wrap (sumZ (map Usage.OutputTokens (usagesOf msgs))))).
  { intros msgs. apply (fold_addUsage msgs 0 0). }
  unfold GetTokenUsage, usages.
  split; [apply Hsum |].
  split; [intros H; rewrite Hsum; simpl; apply wrap_inRange, H |].
  split; [intros H; rewrite Hsum; simpl; apply wrap_inRange, H |].
  split.
  - intros pre post msg Hs Hnone. simpl. rewrite Hs, !Hsum.
    assert (Hd : decodedUsage msg = None).
    { unfold decodedUsage.
      destruct (String.eqb_spec (Message.Type_ msg) "assistant") as [e | n];
        [| reflexivity].
      destruct Hnone as [Hn | [Hn | Hn]].
      - exfalso. apply Hn. exact e.
      - rewrite Hn. reflexivity.
      - destruct (Message.Content msg) as [| u | l | a]; auto. }
    unfold usagesOf. rewrite !flat_map_app. simpl. rewrite Hd. reflexivity.
  - intros c. simpl. rewrite !Hsum.
    destruct (usagesOf_setCacheCreation c (Session.Messages s)) as [Hi Ho].
    rewrite Hi, Ho. reflexivity.
Qed.

(** ** The JSONL reader *)

Lemma fst_bind {A B} (c : Log A) (k : A -> Log B) :
  fst (bind c k) = fst (k (fst c)).
Proof. unfold bind. destruct c as [a w]. simpl. destruct (k a). reflexivity. Qed.

Lemma snd_bind {A B} (c : Log A) (k : A -> Log B) :
  snd (bind c k) = snd c ++ snd (k (fst c)).
Proof. unfold bind. destruct c as [a w]. simpl. destruct (k a). reflexivity. Qed.

Lemma bind_pair {A B} (a : A) (w : list Warning) (k : A -> Log B) :
  bind (a, w) k = (fst (k a), w ++ snd (k a)).
Proof. unfold bind. destruct (k a). reflexivity. Qed.

Lemma firstSessionID_cons (m : Message.t) (ms : list Message.t) :
  firstSessionID (m :: ms) =
  if String.eqb (Message.SessionID m) EmptyString then firstSessionID ms
  else Message.SessionID m.
Proof.
  unfold firstSessionID. simpl.
  destruct (String.eqb (Message.SessionID m) EmptyString); reflexivity.
Qed.

Section ReaderFacts.
Context {json : JSON}.

Lemma ParseContent_fields (m : Message.t) :
  let m' := fst (ParseContent m) in
  Message.UUID m' = Message.UUID m /\
  Message.SessionID m' = Message.SessionID m /\
  Message.Type_ m' = Message.Type_ m /\
  Message.Timestamp m' = Message.Timestamp m /\
  Message.Message m' = Message.Message m.
Proof.
  unfold ParseContent.
  destruct (String.eqb (Message.Type_ m) MessageTypeUser).
  - destruct (String.eqb (Message.UserType m) "external"); simpl; auto.
    destruct (Unmarshal_userPayload (Message.Message m)) as [[role raw] |];
      simpl; auto.
    destruct (Unmarshal_string raw); simpl; auto.
    destruct (Unmarshal_ToolResults raw); simpl; auto.
  - destruct (String.eqb (Message.Type_ m) MessageTypeAssistant);
      simpl; auto.
    destruct (Unmarshal_AssistantMessage (Message.Message m)); simpl; auto.
Qed.

(** One turn of the reading loop, by the kind of line. *)
Lemma readLines_blank (line : string) (rest : list string) (n : Z)
      (s : Session.t) :
  (GoStrings.len line =? 0) = true ->
  readLines (line :: rest) n s = readLines rest (n + 1) s.
Proof. intros H. simpl. rewrite H. reflexivity. Qed.

Lemma readLines_malformed (line : string) (rest : list string) (n : Z)
      (s : Session.t) (err : error) :
  (GoStrings.len line =? 0) = false ->
  decodeLine line = Err err ->
  readLines (line :: rest) n s =
  (fst (readLines rest (n + 1) s),
   WarnParseLine (n + 1) err :: snd (readLines rest (n + 1) s)).
Proof.
  intros H E. simpl. rewrite H, E. unfold bind, warn.
  destruct (readLines rest (n + 1) s). reflexivity.
Qed.

Lemma readLines_record (line : string) (rest : list string) (n : Z)
      (s : Session.t) (msg : Message.t) :
  (GoStrings.len line =? 0) = false ->
  decodeLine line = Ok msg ->
  readLines (line :: rest) n s =
  (fst (readLines rest (n + 1) (afterRecord s msg)),
   match snd (ParseContent msg) with
   | Some err => [WarnParseContent (Message.UUID msg) err]
   | None => []
   end ++ snd (readLines rest (n + 1) (afterRecord s msg))).
Proof.
  intros H E. simpl. rewrite H, E. unfold afterRecord.
  pose proof (ParseContent_fields msg) as [Hu _].
  destruct (ParseContent msg) as [m' perr]. simpl in *.
  unfold bind, warn, ret.
  destruct perr; destruct (readLines rest (n + 1) _);
    rewrite ?Hu; reflexivity.
Qed.
End ReaderFacts.

Section ReaderLoop.
Context {json : JSON}.

Lemma afterRecord_Messages (s : Session.t) (msg : Message.t) :
  Session.Messages (afterRecord s msg)
  = Session.Messages s ++ [fst (ParseContent msg)].
Proof.
  unfold afterRecord, AddMessage. simpl.
  destruct (_ && _); reflexivity.
Qed.

Lemma afterRecord_ID (s : Session.t) (msg : Message.t) :
  Session.ID (afterRecord s msg)
  = if String.eqb (Session.ID s) EmptyString then Message.SessionID msg
    else Session.ID s.
Proof.
  unfold afterRecord, AddMessage. simpl.
  destruct (String.eqb_spec (Session.ID s) EmptyString) as [e | n]; simpl.
  - destruct (String.eqb_spec (Message.SessionID msg) EmptyString);
      simpl; congruence.
  - reflexivity.
Qed.

Lemma readLines_Messages (ls : list string) (n : Z) (s : Session.t) :
  Session.Messages (fst (readLines ls n s))
  = Session.Messages s ++ decodedRecords ls.
Proof.
  unfold decodedRecords.
  revert n s. induction ls as [| line rest IH]; intros n s.
  - simpl. rewrite app_nil_r. reflexivity.
  - unfold records. cbn [flat_map]. fold (records rest).
    destruct (GoStrings.len line =? 0) eqn:Hb.
    + rewrite readLines_blank by assumption. apply IH.
    + destruct (decodeLine line) as [msg | err] eqn:E.
      * rewrite (readLines_record _ _ _ _ msg) by assumption.
        cbn [fst]. rewrite IH, afterRecord_Messages.
        rewrite <- app_assoc. reflexivity.
      * rewrite (readLines_malformed _ _ _ _ err) by assumption.
        cbn [fst]. apply IH.
Qed.

Lemma readLines_ID (ls : list string) (n : Z) (s : Session.t) :
  Session.ID (fst (readLines ls n s))
  = if String.eqb (Session.ID s) EmptyString
    then firstSessionID (records ls) else Session.ID s.
Proof.
  revert n s. induction ls as [| line rest IH]; intros n s.
  - simpl. destruct (String.eqb_spec (Session.ID s) EmptyString); auto.
  - unfold records. cbn [flat_map]. fold (records rest).
    destruct (GoStrings.len line =? 0) eqn:Hb.
    + rewrite readLines_blank by assumption. apply IH.
    + destruct (decodeLine line) as [msg | err] eqn:E.
      * rewrite (readLines_record _ _ _ _ msg) by assumption.
        cbn [fst app]. rewrite IH, afterRecord_ID, firstSessionID_cons.
        destruct (String.eqb_spec (Session.ID s) EmptyString) as [e | ne].
        -- destruct (String.eqb (Message.SessionID msg) EmptyString);
             reflexivity.
        -- apply String.eqb_neq in ne. rewrite ne. reflexivity.
      * rewrite (readLines_malformed _ _ _ _ err) by assumption.
        cbn [fst]. apply IH.
Qed.

End ReaderLoop.


Section ReaderResults.
Context {json : JSON}.


Lemma length_records (ls : list string) :
  List.length (records ls) = List.length (filter wellFormed ls).
Proof.
  unfold records, wellFormed.
  induction ls as [| line rest IH]; simpl; [reflexivity |].
  destruct (GoStrings.len line =? 0); simpl; [assumption |].
  destruct (decodeLine line); simpl; rewrite IH; reflexivity.
Qed.


Lemma ReadSession_stream (ls : list string) :
  let r := ReadSession (Ok {| lines := ls; scanErr := None |}) in
  fst r = (if Z.of_nat (List.length (decodedRecords ls)) =? 0
           then Err (ErrMsg "no messages found in file")
           else Ok (fst (readLines ls 0 Session.zero))) /\
  snd r = snd (readLines ls 0 Session.zero).
Proof.
  unfold ReadSession. cbn [lines scanErr].
  pose proof (readLines_Messages ls 0 Session.zero) as HM.
  simpl in HM. unfold bind.
  destruct (readLines ls 0 Session.zero) as [s w]. simpl in *.
  rewrite HM.
  destruct (Z.of_nat (List.length (decodedRecords ls)) =? 0);
    simpl; rewrite app_nil_r; auto.
Qed.
End ReaderResults.

Section ReaderClaims.
Context {json : JSON}.


End ReaderClaims.

Lemma firstSessionID_empty (msgs : list Message.t) :
  firstSessionID msgs = EmptyString <->
  Forall (fun m => Message.SessionID m = EmptyString) msgs.
Proof.
  induction msgs as [| m ms IH].
  - split; [constructor | reflexivity].
  - rewrite firstSessionID_cons.
    destruct (String.eqb_spec (Message.SessionID m) EmptyString) as [e | n].
    + rewrite IH. split; intros H.
      * constructor; assumption.
      * inversion H; assumption.
    + split; intros H; [contradiction |].
      inversion H; contradiction.
Qed.

Section SessionIdentity.
Context {json : JSON}.

Lemma ReadSession_Ok_inv (f : Stream) (s : Session.t) :
  fst (ReadSession (Ok f)) = Ok s ->
  s = fst (readLines (lines f) 0 Session.zero) /\ scanErr f = None.
Proof.
  unfold ReadSession, bind.
  destruct (readLines (lines f) 0 Session.zero) as [s0 w]. simpl.
  destruct (scanErr f); simpl; [discriminate |].
  destruct (Z.of_nat (List.length (Session.Messages s0)) =? 0); simpl;
    [discriminate |].
  intros H. inversion H. auto.
Qed.

(** C7, as the code has it.  The identity of a session read from a file
    is the first non-empty session identifier among its records, in file
    order: the identifier of the first record when that record carries
    one, and empty only when no record carries any. *)
Theorem ReadSession_ID_first_nonempty :
  forall (f : Stream) (s : Session.t),
    fst (ReadSession (Ok f)) = Ok s ->
    Session.ID s = firstSessionID (records (lines f)) /\
    (forall first rest,
        records (lines f) = first :: rest ->
        Message.SessionID first <> EmptyString ->
        Session.ID s = Message.SessionID first) /\
    (Session.ID s = EmptyString <->
     Forall (fun m => Message.SessionID m = EmptyString)
            (records (lines f))).
Proof.
  intros f s H. apply ReadSession_Ok_inv in H. destruct H as [Hs _].
  assert (Hid : Session.ID s = firstSessionID (records (lines f))).
  { subst s. rewrite readLines_ID. reflexivity. }
  split; [exact Hid |]. split.
  - intros first rest Hr Hne. rewrite Hid, Hr, firstSessionID_cons.
    apply String.eqb_neq in Hne. rewrite Hne. reflexivity.
  - rewrite Hid. apply firstSessionID_empty.
Qed.
End SessionIdentity.

Lemma ReadSession_ID_first_nonempty_witness :
  exists s : Session.t,
    fst (@ReadSession Fixture.json
           (Fixture.stream [Fixture.userLine; Fixture.assistantLine])) = Ok s /\
    Session.ID s = "session1".
Proof.
  pose (f := {| lines := [Fixture.userLine; Fixture.assistantLine];
                scanErr := None |}).
  pose (s := fst (@readLines Fixture.json (lines f) 0 Session.zero)).
  assert (H : fst (@ReadSession Fixture.json (Ok f)) = Ok s)
    by (vm_compute; reflexivity).
  exists s. split; [exact H |].
  destruct (@ReadSession_ID_first_nonempty Fixture.json f s H) as [Hid _].
  rewrite Hid. vm_compute. reflexivity.
Defined.

(** C7 as stated fails: when the first record carries no session
    identifier and a later one does, the session takes the later one
    instead of staying without identity. *)
Lemma ReadSession_ID_counterexample :
  exists s : Session.t,
    fst (@ReadSession Fixture.json
           (Fixture.stream [Fixture.anonymousLine; Fixture.assistantLine]))
    = Ok s /\
    @records Fixture.json [Fixture.anonymousLine; Fixture.assistantLine]
    = [Fixture.anonymousRecord; Fixture.assistantRecord] /\
    Message.SessionID Fixture.anonymousRecord = EmptyString /\
    Session.ID s = "session1".
Proof.
  eexists. split; [vm_compute; reflexivity |].
  repeat split; vm_compute; reflexivity.
Qed.

Section ContentDecoding.
Context {json : JSON}.

Lemma readLines_app (a b : list string) (n : Z) (s : Session.t) :
  readLines (a ++ b) n s =
  (fst (readLines b (n + Z.of_nat (List.length a)) (fst (readLines a n s))),
   snd (readLines a n s)
   ++ snd (readLines b (n + Z.of_nat (List.length a))
                     (fst (readLines a n s)))).
Proof.
  revert n s. induction a as [| line rest IH]; intros n s.
  - simpl. rewrite Z.add_0_r. destruct (readLines b n s); reflexivity.
  - change ((line :: rest) ++ b) with (line :: (rest ++ b)).
    replace (n + Z.of_nat (List.length (line :: rest)))
      with (n + 1 + Z.of_nat (List.length rest))
      by (simpl List.length; lia).
    destruct (GoStrings.len line =? 0) eqn:Hb.
    + rewrite !readLines_blank by assumption. apply IH.
    + destruct (decodeLine line) as [msg | err] eqn:E.
      * rewrite !(readLines_record _ _ _ _ msg) by assumption.
        rewrite IH. cbn [fst snd]. rewrite app_assoc. reflexivity.
      * rewrite !(readLines_malformed _ _ _ _ err) by assumption.
        rewrite IH. reflexivity.
Qed.

Lemma decodedRecords_middle (pre post : list string) (line : string)
      (msg : Message.t) :
  (GoStrings.len line =? 0) = false -> decodeLine line = Ok msg ->
  decodedRecords (pre ++ line :: post)
  = decodedRecords pre ++ fst (ParseContent msg) :: decodedRecords post.
Proof.
  intros Hb E. unfold decodedRecords, records.
  rewrite flat_map_app. cbn [flat_map]. rewrite Hb, E.
  rewrite map_app. reflexivity.
Qed.

(** C9.  For a record of type assistant whose payload [encoding/json]
    cannot decode as an [AssistantMessage], [ParseContent] reports the
    error and leaves the message as it was; read from a file, the
    message keeps its nil content, is appended to the session at its
    place and only costs a warning; and however content decoding goes,
    the session holds one message per well-formed line. *)
Theorem ParseContent_mismatch_keeps_message :
  forall (msg : Message.t) (err : error),
    Message.Type_ msg = "assistant" ->
    Unmarshal_AssistantMessage (Message.Message msg) = Err err ->
    ParseContent msg = (msg, Some err) /\
    (forall pre line post,
        (GoStrings.len line =? 0) = false -> decodeLine line = Ok msg ->
        let r := ReadSession (Ok {| lines := pre ++ line :: post;
                                    scanErr := None |}) in
        Message.Content msg = Message.Nil /\
        (exists s,
            fst r = Ok s /\
            Session.Messages s
            = decodedRecords pre ++ msg :: decodedRecords post) /\
        In (WarnParseContent (Message.UUID msg) err) (snd r)) /\
    (forall ls,
        List.length (Session.Messages (fst (readLines ls 0 Session.zero)))
        = List.length (filter wellFormed ls)).
Proof.
  intros msg err Hty Hdec.
  assert (HP : ParseContent msg = (msg, Some err)).
  { unfold ParseContent. rewrite Hty, Hdec. reflexivity. }
  split; [exact HP |]. split.
  - intros pre line post Hb E r.
    destruct (ReadSession_stream (pre ++ line :: post)) as [Hfst Hsnd].
    fold r in Hfst, Hsnd.
    pose proof (decodedRecords_middle pre post line msg Hb E) as HD.
    rewrite HP in HD. simpl in HD.
    split; [| split].
    + unfold decodeLine in E.
      destruct (Unmarshal_Message line); inversion E. reflexivity.
    + exists (fst (readLines (pre ++ line :: post) 0 Session.zero)).
      rewrite Hfst, HD. split.
      * rewrite length_app. simpl List.length.
        destruct (Z.eqb_spec
                    (Z.of_nat (List.length (decodedRecords pre)
                               + S (List.length (decodedRecords post)))) 0);
          [lia | reflexivity].
      * rewrite readLines_Messages. simpl. exact HD.
    + rewrite Hsnd, readLines_app.
      rewrite (readLines_record _ _ _ _ msg) by assumption.
      rewrite HP. cbn [snd]. apply in_or_app. right. left. reflexivity.
  - intros ls. rewrite readLines_Messages. simpl.
    unfold decodedRecords. rewrite length_map. apply length_records.
Qed.
End ContentDecoding.

Lemma ParseContent_mismatch_keeps_message_witness :
  Message.Type_ Fixture.mismatchRecord = "assistant" /\
  @ParseContent Fixture.json Fixture.mismatchRecord
  = (Fixture.mismatchRecord,
     Some (Fixture.typeError "string into Go struct field AssistantMessage.content of type []models.MessageContent")).
Proof.
  split; [reflexivity |].
  refine (proj1 (@ParseContent_mismatch_keeps_message Fixture.json
                   Fixture.mismatchRecord _ _ _)).
  - reflexivity.
  - vm_compute. reflexivity.
Defined.

(** ** The scanner *)

Lemma fold_AddSession (l : list Session.t) (p : Project.t) :
  fold_left AddSession l p =
  Project.mk (Project.ID p) (Project.Path p) (Project.EncodedPath p)
    (Project.Sessions p
     ++ map (fun s => Session.with_ProjectID s (Project.ID p)) l)
    (Project.TodoLists p).
Proof.
  revert p. induction l as [| s l IH]; intros p.
  - simpl. rewrite app_nil_r. destruct p; reflexivity.
  - cbn [fold_left]. rewrite IH. unfold AddSession. simpl.
    rewrite <- app_assoc. reflexivity.
Qed.

Lemma fold_AddTodoList (l : list TodoList.t) (p : Project.t) :
  fold_left AddTodoList l p =
  Project.mk (Project.ID p) (Project.Path p) (Project.EncodedPath p)
    (Project.Sessions p) (Project.TodoLists p ++ l).
Proof.
  revert p. induction l as [| t l IH]; intros p.
  - simpl. rewrite app_nil_r. destruct p; reflexivity.
  - cbn [fold_left]. rewrite IH. unfold AddTodoList. simpl.
    rewrite <- app_assoc. reflexivity.
Qed.

Section ScannerLoops.
Context {json : JSON}.
Variable options : ScanOptions.

Lemma sessionFiles_spec (projectPath : Path) (projectID : string)
      (entries : list SessionEntry) (sessions : list Session.t) :
  sessionFiles projectPath projectID entries sessions =
  (sessions
   ++ flat_map (fun e => fst (sessionOf projectPath projectID e)) entries,
   flat_map (fun e => snd (sessionOf projectPath projectID e)) entries).
Proof.
  revert sessions.
  induction entries as [| entry rest IH]; intros sessions.
  - simpl. rewrite app_nil_r. reflexivity.
  - cbn [sessionFiles flat_map]. unfold sessionOf at 1 3.
    destruct (seIsDir entry
              || negb (GoStrings.HasSuffix (seName entry) ".jsonl")).
    + rewrite IH. reflexivity.
    + unfold bind, warn.
      destruct (ReadSession (seOpen entry)) as [[session | err] w].
      * rewrite IH. cbn [fst snd]. rewrite <- app_assoc. reflexivity.
      * rewrite IH. cbn [fst snd app].
        rewrite <- app_assoc. reflexivity.
Qed.

Lemma todoFiles_fst (todosPath : Path) (entries : list TodoEntry)
      (todoLists : list TodoList.t) :
  fst (todoFiles todosPath entries todoLists) =
  todoLists ++ flat_map (fun e => match todoListOf e with
                                  | Some tl => [tl]
                                  | None => []
                                  end) entries.
Proof.
  revert todoLists.
  induction entries as [| entry rest IH]; intros todoLists.
  - simpl. rewrite app_nil_r. reflexivity.
  - cbn [todoFiles flat_map]. unfold todoListOf at 1.
    destruct (teIsDir entry); cbn [orb]; [apply IH |].
    destruct (GoStrings.HasSuffix (teName entry) ".json");
      cbn [negb]; [| apply IH].
    destruct (GoStrings.Split (teName entry) "-agent-")
      as [| sessionID [| part1 [| ? ?]]]; try apply IH.
    destruct (TodoReader_Read (teReadFile entry)) as [[| todo todos] | err].
    + apply IH.
    + replace (0 <? Z.of_nat (List.length (todo :: todos))) with true
        by (symmetry; apply Z.ltb_lt; simpl List.length; lia).
      rewrite IH, <- app_assoc. reflexivity.
    + rewrite fst_bind. apply IH.
Qed.

Lemma scanProjectTodos_fst (fs : ClaudeDir) (projectID : string) :
  fst (scanProjectTodos fs projectID) =
  match todosDir fs with
  | Unreadable err => Err err
  | _ => Ok (todoListsOf fs)
  end.
Proof.
  unfold scanProjectTodos, todoListsOf.
  destruct (todosDir fs) as [| err | entries]; try reflexivity.
  rewrite fst_bind, todoFiles_fst. reflexivity.
Qed.

Lemma attachTodos_fst (fs : ClaudeDir) (name : string) (p : Project.t) :
  fst (attachTodos options fs name p) =
  Project.mk (Project.ID p) (Project.Path p) (Project.EncodedPath p)
    (Project.Sessions p) (Project.TodoLists p ++ requestedTodos options fs).
Proof.
  unfold attachTodos, requestedTodos.
  destruct (IncludeTodos options).
  - rewrite fst_bind, scanProjectTodos_fst. unfold todoListsOf.
    destruct (todosDir fs) as [| err | entries].
    + simpl. rewrite app_nil_r. destruct p; reflexivity.
    + simpl. rewrite app_nil_r. destruct p; reflexivity.
    + cbn [fst ret]. apply fold_AddTodoList.
  - simpl. rewrite app_nil_r. destruct p; reflexivity.
Qed.

Lemma addSessions_unlimited (sessions : list Session.t) (p : Project.t)
      (c : Z) :
  MaxSessions options <= 0 ->
  addSessions options sessions p c =
  Next (fold_left AddSession
                  (filter (shouldIncludeSession options) sessions) p)
       (c + Z.of_nat
              (List.length (filter (shouldIncludeSession options) sessions))).
Proof.
  intros Hm. revert p c.
  induction sessions as [| s rest IH]; intros p c.
  - simpl. rewrite Z.add_0_r. reflexivity.
  - cbn [addSessions filter].
    destruct (shouldIncludeSession options s); [| apply IH].
    destruct (Z.ltb_spec 0 (MaxSessions options)); [lia |].
    cbn [andb]. rewrite IH. cbn [fold_left List.length].
    f_equal. lia.
Qed.

Lemma addSessions_limited (sessions : list Session.t) (p : Project.t)
      (c : Z) :
  0 < MaxSessions options -> c < MaxSessions options ->
  addSessions options sessions p c =
  let rs := filter (shouldIncludeSession options) sessions in
  if MaxSessions options <=? c + Z.of_nat (List.length rs)
  then Return (fold_left AddSession
                 (firstn (Z.to_nat (MaxSessions options - c)) rs) p)
  else Next (fold_left AddSession rs p) (c + Z.of_nat (List.length rs)).
Proof.
  intros Hm. revert p c.
  induction sessions as [| s rest IH]; intros p c Hc; cbv zeta.
  - simpl. rewrite Z.add_0_r.
    destruct (Z.leb_spec (MaxSessions options) c); [lia | reflexivity].
  - cbn [addSessions filter].
    destruct (shouldIncludeSession options s); [| apply IH; assumption].
    destruct (Z.ltb_spec 0 (MaxSessions options)); [| lia].
    cbn [andb List.length].
    destruct (Z.leb_spec (MaxSessions options) (c + 1)).
    + destruct (Z.leb_spec (MaxSessions options)
                  (c + Z.of_nat (S (List.length
                     (filter (shouldIncludeSession options) rest)))));
        [| lia].
      replace (Z.to_nat (MaxSessions options - c)) with 1%nat by lia.
      reflexivity.
    + rewrite IH by lia. cbv zeta.
      replace (c + 1 + Z.of_nat (List.length
                 (filter (shouldIncludeSession options) rest)))
        with (c + Z.of_nat (S (List.length
                 (filter (shouldIncludeSession options) rest))))
        by lia.
      replace (Z.to_nat (MaxSessions options - c))
        with (S (Z.to_nat (MaxSessions options - (c + 1)))) by lia.
      reflexivity.
Qed.
End ScannerLoops.

Lemma totalSessions_app (a b : list Project.t) :
  totalSessions (a ++ b) = totalSessions a + totalSessions b.
Proof.
  unfold totalSessions, allSessions.
  rewrite flat_map_app, length_app. lia.
Qed.

Lemma totalSessions_cons (p : Project.t) (ps : list Project.t) :
  totalSessions (p :: ps)
  = Z.of_nat (List.length (Project.Sessions p)) + totalSessions ps.
Proof.
  unfold totalSessions, allSessions. simpl. rewrite length_app. lia.
Qed.

Section ScanProjectsFacts.
Context {json : JSON}.
Variable options : ScanOptions.
Variable fs : ClaudeDir.
Variable projectsPath : Path.

(** What an entry adds to the number of sessions. *)
Lemma totalSessions_fullProject (entry : ProjectEntry) :
  totalSessions (fullProject options fs projectsPath entry) =
  match candidate options projectsPath entry with
  | Some rs => Z.of_nat (List.length rs)
  | None => 0
  end.
Proof.
  unfold fullProject.
  destruct (candidate options projectsPath entry) as [[| s rs] |];
    try reflexivity.
  rewrite totalSessions_cons. cbn [Project.Sessions].
  rewrite length_map. unfold totalSessions. simpl. lia.
Qed.

Lemma projectDirs_unlimited (entries : list ProjectEntry)
      (acc : list Project.t) (c : Z) :
  MaxSessions options <= 0 ->
  fst (projectDirs options fs projectsPath entries acc c)
  = acc ++ fullProjects options fs projectsPath entries.
Proof.
  intros Hm. revert acc c.
  induction entries as [| entry rest IH]; intros acc c.
  - simpl. rewrite app_nil_r. reflexivity.
  - cbn [projectDirs]. unfold fullProjects. cbn [flat_map].
    fold (fullProjects options fs projectsPath rest).
    unfold fullProject, candidate.
    destruct (peIsDir entry); cbn [negb]; [| apply IH].
    destruct (shouldProcessProject options (peName entry)); cbn [negb];
      [| apply IH].
    rewrite fst_bind. unfold NewProject. cbn [Project.ID].
    destruct (fst (scanProjectSessions
                     (filepath_Join projectsPath (peName entry))
                     (peName entry) (peReadDir entry)))
      as [sessions | err].
    + rewrite addSessions_unlimited by assumption.
      rewrite fst_bind, attachTodos_fst, fold_AddSession.
      cbn [Project.ID Project.Path Project.EncodedPath Project.Sessions
           Project.TodoLists app].
      destruct (filter (shouldIncludeSession options) sessions)
        as [| s rs].
      * cbn. apply IH.
      * replace (0 <? Z.of_nat (List.length
                   (map (fun s0 => Session.with_ProjectID s0 (peName entry))
                        (s :: rs)))) with true
          by (symmetry; apply Z.ltb_lt; simpl List.length; lia).
        rewrite IH, <- app_assoc. reflexivity.
    + rewrite fst_bind. apply IH.
Qed.

Lemma projectDirs_limited (entries : list ProjectEntry)
      (acc : list Project.t) (c : Z) :
  0 < MaxSessions options -> c < MaxSessions options ->
  fst (projectDirs options fs projectsPath entries acc c)
  = acc ++ capProjects (Z.to_nat (MaxSessions options - c))
                       (fullProjects options fs projectsPath entries).
Proof.
  intros Hm. revert acc c.
  induction entries as [| entry rest IH]; intros acc c Hc.
  - simpl. rewrite app_nil_r. reflexivity.
  - cbn [projectDirs]. unfold fullProjects. cbn [flat_map].
    fold (fullProjects options fs projectsPath rest).
    unfold fullProject, candidate.
    destruct (peIsDir entry); cbn [negb]; [| apply IH; assumption].
    destruct (shouldProcessProject options (peName entry)); cbn [negb];
      [| apply IH; assumption].
    rewrite fst_bind. unfold NewProject. cbn [Project.ID].
    destruct (fst (scanProjectSessions
                     (filepath_Join projectsPath (peName entry))
                     (peName entry) (peReadDir entry)))
      as [sessions | err].
    + rewrite addSessions_limited by assumption. cbv zeta.
      destruct (filter (shouldIncludeSession options) sessions)
        as [| s rs].
      * destruct (Z.leb_spec (MaxSessions options)
                             (c + Z.of_nat (List.length (@nil Session.t))));
          [simpl in *; lia |].
        rewrite fst_bind, attachTodos_fst. cbn.
        rewrite Z.add_0_r. apply IH. assumption.
      * destruct (Z.leb_spec (MaxSessions options)
                    (c + Z.of_nat (List.length (s :: rs)))) as [Hr | Hr].
        -- cbn [fst ret app capProjects Project.Sessions].
           rewrite length_map.
           destruct (Nat.ltb_spec (List.length (s :: rs))
                       (Z.to_nat (MaxSessions options - c)));
             [lia |].
           rewrite fold_AddSession. unfold cutProject.
           cbn [Project.ID Project.Path Project.EncodedPath
                Project.Sessions Project.TodoLists app].
           rewrite firstn_map. reflexivity.
        -- rewrite fst_bind, attachTodos_fst, fold_AddSession.
           cbn [Project.ID Project.Path Project.EncodedPath
                Project.Sessions Project.TodoLists app capProjects].
           replace (0 <? Z.of_nat (List.length
                      (map (fun s0 =>
                              Session.with_ProjectID s0 (peName entry))
                           (s :: rs)))) with true
             by (symmetry; apply Z.ltb_lt; simpl List.length; lia).
           rewrite length_map.
           destruct (Nat.ltb_spec (List.length (s :: rs))
                       (Z.to_nat (MaxSessions options - c)));
             [| lia].
           rewrite IH by lia. rewrite <- app_assoc. cbn [app].
           repeat f_equal. lia.
    + rewrite fst_bind. apply IH. assumption.
Qed.
End ScanProjectsFacts.

Section ScanStops.
Context {json : JSON}.
Variable options : ScanOptions.
Variable fs : ClaudeDir.
Variable projectsPath : Path.

(** Once the entries seen so far fill the limit, later entries are not
    looked at: neither the result nor the warnings depend on them. *)
Lemma projectDirs_stops (pre post : list ProjectEntry)
      (acc : list Project.t) (c : Z) :
  0 < MaxSessions options -> c < MaxSessions options ->
  MaxSessions options
  <= c + totalSessions (fullProjects options fs projectsPath pre) ->
  projectDirs options fs projectsPath (pre ++ post) acc c
  = projectDirs options fs projectsPath pre acc c.
Proof.
  intros Hm. revert acc c.
  induction pre as [| entry rest IH]; intros acc c Hc Hfull.
  - unfold totalSessions in Hfull. simpl in Hfull. lia.
  - unfold fullProjects in Hfull. cbn [flat_map] in Hfull.
    fold (fullProjects options fs projectsPath rest) in Hfull.
    rewrite totalSessions_app, totalSessions_fullProject in Hfull.
    unfold candidate in Hfull.
    change ((entry :: rest) ++ post) with (entry :: (rest ++ post)).
    cbn [projectDirs].
    destruct (peIsDir entry); cbn [negb] in *;
      [| apply IH; [assumption | lia]].
    destruct (shouldProcessProject options (peName entry));
      cbn [negb] in *; [| apply IH; [assumption | lia]].
    unfold NewProject. cbn [Project.ID].
    destruct (scanProjectSessions
                (filepath_Join projectsPath (peName entry))
                (peName entry) (peReadDir entry)) as [[sessions | err] w].
    + cbn [fst] in Hfull. rewrite !bind_pair. cbn beta iota.
      rewrite addSessions_limited by assumption. cbv zeta.
      destruct (Z.leb_spec (MaxSessions options)
                  (c + Z.of_nat (List.length
                     (filter (shouldIncludeSession options) sessions))));
        [reflexivity |].
      destruct (attachTodos options fs (peName entry) _) as [p' w'].
      rewrite !bind_pair. rewrite IH by lia. reflexivity.
    + cbn [fst] in Hfull. rewrite !bind_pair. cbn beta iota.
      unfold warn. rewrite !bind_pair. rewrite IH by lia. reflexivity.
Qed.
End ScanStops.

(** ** Cutting a list of projects at a number of sessions *)

Lemma capProjects_allSessions (k : nat) (ps : list Project.t) :
  allSessions (capProjects k ps) = firstn k (allSessions ps).
Proof.
  revert k. induction ps as [| p rest IH]; intros k.
  - simpl. rewrite firstn_nil. reflexivity.
  - cbn [capProjects]. unfold allSessions in *. cbn [flat_map].
    rewrite firstn_app.
    destruct (Nat.ltb_spec (List.length (Project.Sessions p)) k).
    + cbn [flat_map]. rewrite IH.
      rewrite (@firstn_all2 _ k (Project.Sessions p)) by lia. reflexivity.
    + cbn [flat_map cutProject Project.Sessions].
      replace (k - List.length (Project.Sessions p))%nat with O by lia.
      rewrite firstn_O. reflexivity.
Qed.

Lemma capProjects_short (k : nat) (ps : list Project.t) :
  (List.length (allSessions ps) < k)%nat -> capProjects k ps = ps.
Proof.
  revert k. induction ps as [| p rest IH]; intros k Hk; [reflexivity |].
  unfold allSessions in *. cbn [flat_map capProjects] in *.
  rewrite length_app in Hk.
  destruct (Nat.ltb_spec (List.length (Project.Sessions p)) k); [| lia].
  rewrite IH by lia. reflexivity.
Qed.

Lemma capProjects_cut (k : nat) (ps : list Project.t) :
  (0 < k)%nat -> (k <= List.length (allSessions ps))%nat ->
  exists (front back : list Project.t) (p : Project.t) (j : nat),
    ps = front ++ p :: back /\
    capProjects k ps = front ++ [cutProject j p] /\
    (0 < j <= List.length (Project.Sessions p))%nat /\
    (List.length (allSessions front) + j = k)%nat.
Proof.
  revert k. induction ps as [| p rest IH]; intros k Hk Hle.
  - simpl in Hle. lia.
  - unfold allSessions in Hle. cbn [flat_map] in Hle.
    rewrite length_app in Hle. cbn [capProjects].
    destruct (Nat.ltb_spec (List.length (Project.Sessions p)) k).
    + destruct (IH (k - List.length (Project.Sessions p))%nat)
        as [front [back [q [j [Hps [Hcap [Hj Hsum]]]]]]];
        [lia | unfold allSessions; lia |].
      exists (p :: front), back, q, j. rewrite Hcap, Hps.
      repeat split; try tauto.
      unfold allSessions in *. cbn [flat_map]. rewrite length_app. lia.
    + exists [], rest, p, k. repeat split; auto; simpl; lia.
Qed.

Section ScanProjectsResult.
Context {json : JSON}.
Variable options : ScanOptions.

Lemma scanProjectTodos_todosDir (fs fs' : ClaudeDir) (pid : string) :
  todosDir fs = todosDir fs' ->
  scanProjectTodos fs pid = scanProjectTodos fs' pid.
Proof. unfold scanProjectTodos. intros H. rewrite H. reflexivity. Qed.

Lemma attachTodos_todosDir (fs fs' : ClaudeDir) (name : string)
      (p : Project.t) :
  todosDir fs = todosDir fs' ->
  attachTodos options fs name p = attachTodos options fs' name p.
Proof.
  intros H. unfold attachTodos.
  rewrite (scanProjectTodos_todosDir fs fs' _ H). reflexivity.
Qed.

Lemma projectDirs_todosDir (fs fs' : ClaudeDir) (projectsPath : Path)
      (entries : list ProjectEntry) (acc : list Project.t) (c : Z) :
  todosDir fs = todosDir fs' ->
  projectDirs options fs projectsPath entries acc c
  = projectDirs options fs' projectsPath entries acc c.
Proof.
  intros H. revert acc c.
  induction entries as [| entry rest IH]; intros acc c; [reflexivity |].
  cbn [projectDirs].
  destruct (peIsDir entry); cbn [negb]; [| apply IH].
  destruct (shouldProcessProject options (peName entry)); cbn [negb];
    [| apply IH].
  destruct (scanProjectSessions _ _ _) as [[sessions | err] w];
    rewrite !bind_pair; cbn beta iota.
  - destruct (addSessions options sessions _ c) as [p | p c'];
      [reflexivity |].
    rewrite (attachTodos_todosDir fs fs' _ _ H).
    destruct (attachTodos options fs' (peName entry) p) as [p' w'].
    rewrite !bind_pair, IH. reflexivity.
  - unfold warn. rewrite !bind_pair, IH. reflexivity.
Qed.

Lemma fullProjects_todosDir (fs fs' : ClaudeDir) (projectsPath : Path)
      (entries : list ProjectEntry) :
  todosDir fs = todosDir fs' ->
  fullProjects options fs projectsPath entries
  = fullProjects options fs' projectsPath entries.
Proof.
  intros H. unfold fullProjects, fullProject, requestedTodos, todoListsOf.
  rewrite H. reflexivity.
Qed.

Lemma fullProjects_TodoLists (fs : ClaudeDir) (projectsPath : Path)
      (entries : list ProjectEntry) :
  Forall (fun p => Project.TodoLists p = requestedTodos options fs
                   /\ Project.Sessions p <> [])
         (fullProjects options fs projectsPath entries).
Proof.
  apply Forall_forall. intros p Hin. unfold fullProjects in Hin.
  apply in_flat_map in Hin. destruct Hin as [entry [_ Hin]].
  unfold fullProject in Hin.
  destruct (candidate options projectsPath entry) as [[| s rs] |];
    try contradiction.
  destruct Hin as [Hp | []]. subst p. simpl. split; [auto | discriminate].
Qed.

(** The projects [ScanProjects] returns. *)
Lemma ScanProjects_fst (fs : ClaudeDir) :
  fst (ScanProjects options fs) =
  match projectsDir fs with
  | NotExist =>
      Err (ErrAt "projects directory not found" (filepath_Join [] "projects"))
  | Unreadable err => Err (ErrWrap "failed to read projects directory" err)
  | Entries entries =>
      let full :=
        fullProjects options fs (filepath_Join [] "projects") entries in
      Ok (if 0 <? MaxSessions options
          then capProjects (Z.to_nat (MaxSessions options)) full
          else full)
  end.
Proof.
  unfold ScanProjects.
  destruct (projectsDir fs) as [| err | entries]; try reflexivity.
  rewrite fst_bind. cbn [ret fst]. f_equal.
  destruct (Z.ltb_spec 0 (MaxSessions options)).
  - rewrite projectDirs_limited by lia.
    rewrite Z.sub_0_r. reflexivity.
  - rewrite projectDirs_unlimited by lia. reflexivity.
Qed.
End ScanProjectsResult.

Section ScannerClaims.
Context {json : JSON}.

Lemma ScanProjects_limited_inv (options : ScanOptions) (fs : ClaudeDir)
      (projects : list Project.t) :
  0 < MaxSessions options ->
  fst (ScanProjects options fs) = Ok projects ->
  exists entries : list ProjectEntry,
    projectsDir fs = Entries entries /\
    fst (ScanProjects (with_MaxSessions options 0) fs)
    = Ok (fullProjects options fs (filepath_Join [] "projects") entries) /\
    projects
    = capProjects (Z.to_nat (MaxSessions options))
        (fullProjects options fs (filepath_Join [] "projects") entries).
Proof.
  intros Hm H. rewrite ScanProjects_fst in H.
  pose proof (ScanProjects_fst (with_MaxSessions options 0) fs) as H0.
  destruct (projectsDir fs) as [| err | entries]; try discriminate.
  exists entries. split; [reflexivity |]. split.
  - rewrite H0. reflexivity.
  - cbv zeta in H. apply Z.ltb_lt in Hm. rewrite Hm in H.
    inversion H. reflexivity.
Qed.

(** C3.  Under a session limit [m > 0] the scan returns the first [m]
    sessions the unlimited scan would return, grouped as there: never
    more than [m] in total, exactly [m] when the unlimited scan has at
    least [m], and then the last project returned is the one whose
    session completed the limit, cut after that session; once the
    entries seen so far have filled the limit, the entries after them
    are not visited: result and warnings are those of the scan of the
    entries seen so far. *)
Theorem ScanProjects_session_limit :
  forall (options : ScanOptions) (fs : ClaudeDir)
         (projects : list Project.t),
    0 < MaxSessions options ->
    fst (ScanProjects options fs) = Ok projects ->
    exists full : list Project.t,
      fst (ScanProjects (with_MaxSessions options 0) fs) = Ok full /\
      totalSessions projects <= MaxSessions options /\
      (MaxSessions options <= totalSessions full ->
       totalSessions projects = MaxSessions options) /\
      (totalSessions full < MaxSessions options -> projects = full) /\
      allSessions projects
      = firstn (Z.to_nat (MaxSessions options)) (allSessions full) /\
      (MaxSessions options <= totalSessions full ->
       exists (front back : list Project.t) (p last : Project.t),
         full = front ++ p :: back /\
         projects = front ++ [last] /\
         Project.ID last = Project.ID p /\
         Project.Sessions last <> [] /\
         exists j : nat,
           Project.Sessions last = firstn j (Project.Sessions p) /\
           totalSessions front + Z.of_nat j = MaxSessions options) /\
      (forall (pre post : list ProjectEntry) (ps : list Project.t)
              (w : list Warning),
          projectsDir fs = Entries (pre ++ post) ->
          ScanProjects options {| projectsDir := Entries pre;
                                  todosDir := todosDir fs |} = (Ok ps, w) ->
          totalSessions ps = MaxSessions options ->
          ScanProjects options fs = (Ok ps, w)).
Proof.
  intros options fs projects Hm H.
  destruct (ScanProjects_limited_inv options fs projects Hm H)
    as [entries [Hdir [Hfull Hcap]]].
  set (full := fullProjects options fs (filepath_Join [] "projects")
                            entries) in *.
  set (k := Z.to_nat (MaxSessions options)) in *.
  assert (Hall : allSessions projects = firstn k (allSessions full)).
  { rewrite Hcap. apply capProjects_allSessions. }
  exists full. split; [exact Hfull |].
  split; [| split; [| split; [| split; [exact Hall | split]]]].
  - unfold totalSessions. rewrite Hall.
    pose proof (firstn_le_length k (allSessions full)). lia.
  - unfold totalSessions. intros Hge. rewrite Hall.
    rewrite firstn_length_le by lia. lia.
  - unfold totalSessions. intros Hlt. rewrite Hcap.
    apply capProjects_short. lia.
  - unfold totalSessions. intros Hge.
    destruct (capProjects_cut k full)
      as [front [back [p [j [Hps [Hc [Hj Hsum]]]]]]]; [lia | lia |].
    exists front, back, p, (cutProject j p).
    split; [exact Hps |]. split; [congruence |].
    split; [reflexivity |]. split.
    + simpl. destruct (Project.Sessions p); [simpl in Hj; lia |].
      destruct j; [lia | discriminate].
    + exists j. split; [reflexivity |]. lia.
  - intros pre post ps w Hentries Hpre Htotal.
    set (fs1 := {| projectsDir := Entries pre;
                   todosDir := todosDir fs |}) in *.
    assert (Hpre1 : fst (ScanProjects options fs1) = Ok ps)
      by (rewrite Hpre; reflexivity).
    rewrite ScanProjects_fst in Hpre1. cbn [projectsDir fs1] in Hpre1.
    cbv zeta in Hpre1.
    pose proof Hm as Hm'. apply Z.ltb_lt in Hm'. rewrite Hm' in Hpre1.
    injection Hpre1 as Hps.
    assert (Hge : MaxSessions options
                  <= 0 + totalSessions
                           (fullProjects options fs
                              (filepath_Join [] "projects") pre)).
    { rewrite (fullProjects_todosDir options fs fs1) by reflexivity.
      rewrite <- Htotal, <- Hps. unfold totalSessions.
      rewrite capProjects_allSessions, length_firstn. lia. }
    rewrite <- Hpre. unfold ScanProjects.
    rewrite Hentries. cbn [projectsDir fs1].
    rewrite (projectDirs_stops options fs _ pre post [] 0 Hm Hm Hge).
    rewrite (projectDirs_todosDir options fs fs1) by reflexivity.
    reflexivity.
Qed.
End ScannerClaims.

Lemma ScanProjects_session_limit_witness :
  exists projects : list Project.t,
    fst (@ScanProjects Fixture.json (with_MaxSessions Fixture.noFilter 2)
                       Fixture.archive) = Ok projects /\
    totalSessions projects = 2.
Proof.
  pose (o := with_MaxSessions Fixture.noFilter 2).
  pose (projects :=
          match fst (@ScanProjects Fixture.json o Fixture.archive) with
          | Ok ps => ps
          | Err _ => []
          end).
  assert (Hm : 0 < MaxSessions o) by reflexivity.
  assert (H : fst (@ScanProjects Fixture.json o Fixture.archive)
              = Ok projects) by (vm_compute; reflexivity).
  exists projects. split; [exact H |].
  destruct (@ScanProjects_session_limit Fixture.json o Fixture.archive
              projects Hm H) as [full [Hfull [_ [Heq _]]]].
  apply Heq. vm_compute in Hfull. injection Hfull as Hfull.
  rewrite <- Hfull. vm_compute. discriminate.
Defined.

Section LimitAndTodos.
Context {json : JSON}.

(** C10.  When the session limit is reached, the last project returned
    is the one being filled at that moment: it holds sessions but no todo
    list, whatever [IncludeTodos] says, while the projects before it are
    those of the unlimited scan, with the todo lists that scan gives
    them. *)
Theorem ScanProjects_limit_drops_todos :
  forall (options : ScanOptions) (fs : ClaudeDir)
         (projects : list Project.t),
    0 < MaxSessions options ->
    fst (ScanProjects options fs) = Ok projects ->
    totalSessions projects = MaxSessions options ->
    exists (front : list Project.t) (last : Project.t),
      projects = front ++ [last] /\
      Project.Sessions last <> [] /\
      Project.TodoLists last = [] /\
      Forall (fun p => Project.TodoLists p = requestedTodos options fs)
             front /\
      exists full back : list Project.t,
        fst (ScanProjects (with_MaxSessions options 0) fs) = Ok full /\
        full = front ++ back.
Proof.
  intros options fs projects Hm H Htotal.
  destruct (ScanProjects_limited_inv options fs projects Hm H)
    as [entries [Hdir [Hfull Hcap]]].
  set (full := fullProjects options fs (filepath_Join [] "projects")
                            entries) in *.
  assert (Hge : (Z.to_nat (MaxSessions options)
                 <= List.length (allSessions full))%nat).
  { unfold totalSessions in Htotal. rewrite Hcap in Htotal.
    rewrite capProjects_allSessions, length_firstn in Htotal. lia. }
  destruct (capProjects_cut (Z.to_nat (MaxSessions options)) full)
    as [front [back [p [j [Hps [Hc [Hj Hsum]]]]]]]; [lia | exact Hge |].
  exists front, (cutProject j p).
  split; [congruence |]. split; [| split; [reflexivity | split]].
  - simpl. destruct (Project.Sessions p); [simpl in Hj; lia |].
    destruct j; [lia | discriminate].
  - pose proof (fullProjects_TodoLists options fs
                  (filepath_Join [] "projects") entries) as HT.
    fold full in HT. rewrite Hps in HT. apply Forall_app in HT.
    destruct HT as [HT _]. revert HT. apply Forall_impl. tauto.
  - exists full, (p :: back). split; assumption.
Qed.
End LimitAndTodos.

Lemma ScanProjects_limit_drops_todos_witness :
  IncludeTodos (with_MaxSessions Fixture.noFilter 2) = true /\
  exists (first last : Project.t),
    fst (@ScanProjects Fixture.json (with_MaxSessions Fixture.noFilter 2)
                       Fixture.archive) = Ok [first; last] /\
    Project.TodoLists first <> [] /\
    Project.TodoLists last = [].
Proof.
  split; [reflexivity |].
  pose (o := with_MaxSessions Fixture.noFilter 2).
  pose (projects :=
          match fst (@ScanProjects Fixture.json o Fixture.archive) with
          | Ok ps => ps
          | Err _ => []
          end).
  assert (Hm : 0 < MaxSessions o) by reflexivity.
  assert (H : fst (@ScanProjects Fixture.json o Fixture.archive)
              = Ok projects) by (vm_compute; reflexivity).
  assert (Ht : totalSessions projects = MaxSessions o)
    by (vm_compute; reflexivity).
  destruct (@ScanProjects_limit_drops_todos Fixture.json o Fixture.archive
              projects Hm H Ht)
    as [front [last [Hp [_ [Hl [Hf _]]]]]].
  assert (Hlen : List.length projects = 2%nat) by (vm_compute; reflexivity).
  rewrite Hp, length_app in Hlen. simpl in Hlen.
  destruct front as [| first [| ? ?]]; simpl in Hlen; try lia.
  exists first, last. split; [fold o; rewrite H, Hp; reflexivity |].
  split; [| exact Hl].
  inversion Hf as [| ? ? Hfirst _]. rewrite Hfirst. vm_compute. discriminate.
Defined.

Section TodoClaims.
Context {json : JSON}.

Lemma In_todoListsOf (fs : ClaudeDir) (entries : list TodoEntry)
      (tl : TodoList.t) :
  todosDir fs = Entries entries ->
  (In tl (todoListsOf fs) <->
   exists e sessionID part1 todo todos,
     In e entries /\ teIsDir e = false /\
     GoStrings.HasSuffix (teName e) ".json" = true /\
     GoStrings.Split (teName e) "-agent-" = [sessionID; part1] /\
     TodoReader_Read (teReadFile e) = Ok (todo :: todos) /\
     tl = TodoList.mk sessionID (GoStrings.TrimSuffix part1 ".json")
                      (todo :: todos)).
Proof.
  intros Hdir. unfold todoListsOf. rewrite Hdir, in_flat_map. split.
  - intros [e [Hin Htl]]. unfold todoListOf in Htl.
    destruct (teIsDir e) eqn:Hd; [contradiction |].
    destruct (GoStrings.HasSuffix (teName e) ".json") eqn:Hs;
      [| contradiction].
    cbn [negb] in Htl.
    destruct (GoStrings.Split (teName e) "-agent-")
      as [| sessionID [| part1 [| ? ?]]] eqn:Hsp; try contradiction.
    destruct (TodoReader_Read (teReadFile e)) as [[| todo todos] | err]
      eqn:Hr; try contradiction.
    destruct Htl as [Htl | []].
    exists e, sessionID, part1, todo, todos. repeat split; auto.
  - intros [e [sessionID [part1 [todo [todos
             [Hin [Hd [Hs [Hsp [Hr Htl]]]]]]]]]].
    exists e. split; [assumption |].
    unfold todoListOf. rewrite Hd, Hs, Hsp, Hr. left. auto.
Qed.

(** C8, as the code has it.  With todo inclusion requested, every
    project the scan completes (all of them, but for a last project
    returned by reaching the session limit) carries the same todo lists,
    whatever its sessions: one per entry of [todos] that is a file named
    [*.json], whose name splits on [-agent-] into exactly two parts,
    whose content reads and parses, and that holds at least one todo;
    other entries are ignored, and a missing [todos] directory gives no
    todo list, no error and no warning. *)
Theorem ScanProjects_attaches_todos :
  forall (options : ScanOptions) (fs : ClaudeDir),
    IncludeTodos options = true ->
    (forall pid,
        fst (scanProjectTodos fs pid)
        = match todosDir fs with
          | Unreadable err => Err err
          | _ => Ok (todoListsOf fs)
          end) /\
    (todosDir fs = NotExist ->
     forall pid, scanProjectTodos fs pid = (Ok [], [])) /\
    (forall entries tl,
        todosDir fs = Entries entries ->
        (In tl (todoListsOf fs) <->
         exists e sessionID part1 todo todos,
           In e entries /\ teIsDir e = false /\
           GoStrings.HasSuffix (teName e) ".json" = true /\
           GoStrings.Split (teName e) "-agent-" = [sessionID; part1] /\
           TodoReader_Read (teReadFile e) = Ok (todo :: todos) /\
           tl = TodoList.mk sessionID
                  (GoStrings.TrimSuffix part1 ".json") (todo :: todos))) /\
    (forall projects,
        fst (ScanProjects options fs) = Ok projects ->
        forall p, In p projects ->
          Project.TodoLists p = todoListsOf fs \/
          (Project.TodoLists p = [] /\
           0 < MaxSessions options /\
           totalSessions projects = MaxSessions options /\
           exists front, projects = front ++ [p])).
Proof.
  intros options fs Hinc.
  split; [intros pid; apply scanProjectTodos_fst |].
  split; [intros Hne pid; unfold scanProjectTodos; rewrite Hne;
          reflexivity |].
  split; [intros entries tl Hdir; apply In_todoListsOf; assumption |].
  intros projects H p Hin.
  assert (Hreq : requestedTodos options fs = todoListsOf fs)
    by (unfold requestedTodos; rewrite Hinc; reflexivity).
  destruct (Z.ltb_spec 0 (MaxSessions options)) as [Hm | Hm].
  - destruct (ScanProjects_limited_inv options fs projects Hm H)
      as [entries [Hdir [_ Hcap]]].
    set (full := fullProjects options fs (filepath_Join [] "projects")
                              entries) in *.
    pose proof (fullProjects_TodoLists options fs
                  (filepath_Join [] "projects") entries) as HT.
    fold full in HT. rewrite Forall_forall in HT.
    destruct (Nat.ltb_spec (List.length (allSessions full))
                           (Z.to_nat (MaxSessions options))) as [Hs | Hs].
    + rewrite capProjects_short in Hcap by assumption. subst projects.
      left. rewrite <- Hreq. apply HT. assumption.
    + destruct (capProjects_cut (Z.to_nat (MaxSessions options)) full)
        as [front [back [q [j [Hps [Hc [Hj Hsum]]]]]]];
        [lia | exact Hs |].
      rewrite Hc in Hcap. rewrite Hcap in Hin.
      apply in_app_or in Hin. destruct Hin as [Hin | [Hin | []]].
      * left. rewrite <- Hreq. apply HT. rewrite Hps.
        apply in_or_app. left. assumption.
      * right. subst p. split; [reflexivity |]. split; [assumption |].
        split; [| exists front; assumption].
        rewrite Hcap. unfold totalSessions, allSessions.
        rewrite flat_map_app, length_app. cbn [flat_map cutProject
          Project.Sessions]. rewrite app_nil_r, length_firstn.
        unfold allSessions in Hsum. lia.
  - rewrite ScanProjects_fst in H.
    destruct (projectsDir fs) as [| err | entries]; try discriminate.
    cbv zeta in H.
    destruct (Z.ltb_spec 0 (MaxSessions options)); [lia |].
    injection H as H. subst projects. left. rewrite <- Hreq.
    pose proof (fullProjects_TodoLists options fs
                  (filepath_Join [] "projects") entries) as HT.
    rewrite Forall_forall in HT. apply HT. assumption.
Qed.
End TodoClaims.

Lemma ScanProjects_attaches_todos_witness :
  IncludeTodos Fixture.noFilter = true /\
  fst (@scanProjectTodos Fixture.json Fixture.archive "-Users-test-project1")
  = Ok [TodoList.mk "session1" "agent1"
          [Todo.mk "1" "Test todo" "pending" "high"]].
Proof.
  split; [reflexivity |].
  destruct (@ScanProjects_attaches_todos Fixture.json Fixture.noFilter
              Fixture.archive eq_refl) as [Hscan _].
  rewrite Hscan. vm_compute. reflexivity.
Defined.

(** C8 as stated fails: a todo file whose name splits into a session and
    an agent, and whose content is an empty array, is read without error
    and yet gives the project no todo list. *)
Lemma ScanProjects_todos_counterexample :
  exists p : Project.t,
    fst (@ScanProjects Fixture.json Fixture.noFilter
                       Fixture.archiveEmptyTodos) = Ok [p] /\
    IncludeTodos Fixture.noFilter = true /\
    GoStrings.Split "session1-agent-agent1.json" "-agent-"
    = ["session1"; "agent1.json"] /\
    @TodoReader_Read Fixture.json (Ok Fixture.emptyTodos) = Ok [] /\
    Project.TodoLists p = [].
Proof.
  eexists. split; [vm_compute; reflexivity |].
  repeat split; vm_compute; reflexivity.
Qed.

Section EmptySessionFile.
Context {json : JSON}.

Lemma records_none (ls : list string) :
  (forall line, In line ls -> wellFormed line = false) -> records ls = [].
Proof.
  unfold records, wellFormed.
  induction ls as [| line rest IH]; intros H; [reflexivity |].
  cbn [flat_map]. rewrite IH by (intros l Hl; apply H; right; exact Hl).
  specialize (H line (or_introl eq_refl)).
  destruct (GoStrings.len line =? 0); [reflexivity |].
  destruct (decodeLine line); [discriminate | reflexivity].
Qed.

Lemma candidate_ext (options : ScanOptions) (projectsPath : Path)
      (a b : ProjectEntry) :
  peName a = peName b -> peIsDir a = peIsDir b ->
  fst (scanProjectSessions (filepath_Join projectsPath (peName a))
                           (peName a) (peReadDir a))
  = fst (scanProjectSessions (filepath_Join projectsPath (peName b))
                             (peName b) (peReadDir b)) ->
  candidate options projectsPath a = candidate options projectsPath b.
Proof.
  intros Hn Hd Hs. unfold candidate. rewrite Hs, Hn, Hd. reflexivity.
Qed.

(** C6.  A session file whose stream ends without one well-formed line
    makes [ReadSession] fail with "no messages found in file"; for the
    scanner this costs a warning naming the file and nothing else: the
    sessions of the directory, and the projects of the whole scan, are
    those obtained without that file. *)
Theorem no_messages_fails_one_file_only :
  forall ls : list string,
    (forall line, In line ls -> wellFormed line = false) ->
    fst (ReadSession (Ok {| lines := ls; scanErr := None |}))
    = Err (ErrMsg "no messages found in file") /\
    (forall (projectPath : Path) (projectID : string)
            (pre post : list SessionEntry) (e : SessionEntry),
        seIsDir e = false ->
        GoStrings.HasSuffix (seName e) ".jsonl" = true ->
        seOpen e = Ok {| lines := ls; scanErr := None |} ->
        let r := scanProjectSessions projectPath projectID
                                     (Ok (pre ++ e :: post)) in
        fst r = fst (scanProjectSessions projectPath projectID
                                         (Ok (pre ++ post))) /\
        (exists sessions, fst r = Ok sessions) /\
        In (WarnReadSessionFile (filepath_Join projectPath (seName e))
                                (ErrMsg "no messages found in file"))
           (snd r)) /\
    (forall (options : ScanOptions) (fs : ClaudeDir)
            (before after : list ProjectEntry) (dir : ProjectEntry)
            (pre post : list SessionEntry) (e : SessionEntry),
        seIsDir e = false ->
        GoStrings.HasSuffix (seName e) ".jsonl" = true ->
        seOpen e = Ok {| lines := ls; scanErr := None |} ->
        projectsDir fs = Entries (before ++ dir :: after) ->
        peReadDir dir = Ok (pre ++ e :: post) ->
        fst (ScanProjects options fs)
        = fst (ScanProjects options
                 {| projectsDir :=
                      Entries (before
                               ++ {| peName := peName dir;
                                     peIsDir := peIsDir dir;
                                     peReadDir := Ok (pre ++ post) |}
                               :: after);
                    todosDir := todosDir fs |})).
Proof.
  intros ls Hnone.
  assert (Hread : fst (ReadSession (Ok {| lines := ls; scanErr := None |}))
                  = Err (ErrMsg "no messages found in file")).
  { destruct (ReadSession_stream ls) as [Hfst _]. rewrite Hfst.
    unfold decodedRecords. rewrite records_none by assumption.
    reflexivity. }
  assert (Hof : forall projectPath projectID e,
             seIsDir e = false ->
             GoStrings.HasSuffix (seName e) ".jsonl" = true ->
             seOpen e = Ok {| lines := ls; scanErr := None |} ->
             fst (sessionOf projectPath projectID e) = [] /\
             In (WarnReadSessionFile (filepath_Join projectPath (seName e))
                                     (ErrMsg "no messages found in file"))
                (snd (sessionOf projectPath projectID e))).
  { intros projectPath projectID e Hd Hs Ho. unfold sessionOf.
    rewrite Hd, Hs, Ho. cbn [orb negb].
    destruct (ReadSession (Ok {| lines := ls; scanErr := None |}))
      as [r w]. cbn [fst] in Hread. subst r. cbn [fst snd].
    split; [reflexivity |]. apply in_or_app. right. left. reflexivity. }
  assert (Hscan : forall projectPath projectID pre post e,
             seIsDir e = false ->
             GoStrings.HasSuffix (seName e) ".jsonl" = true ->
             seOpen e = Ok {| lines := ls; scanErr := None |} ->
             fst (scanProjectSessions projectPath projectID
                                      (Ok (pre ++ e :: post)))
             = fst (scanProjectSessions projectPath projectID
                                        (Ok (pre ++ post)))).
  { intros projectPath projectID pre post e Hd Hs Ho.
    destruct (Hof projectPath projectID e Hd Hs Ho) as [Hnil _].
    unfold scanProjectSessions. rewrite !fst_bind, !sessionFiles_spec.
    cbn [fst ret]. rewrite !flat_map_app. cbn [flat_map].
    rewrite Hnil. reflexivity. }
  split; [exact Hread |]. split.
  - intros projectPath projectID pre post e Hd Hs Ho r.
    destruct (Hof projectPath projectID e Hd Hs Ho) as [_ Hwarn].
    split; [apply Hscan; assumption |]. split.
    + subst r. unfold scanProjectSessions. rewrite fst_bind.
      cbn [fst ret]. eexists. reflexivity.
    + subst r. unfold scanProjectSessions.
      rewrite snd_bind, sessionFiles_spec. cbn [fst snd ret].
      rewrite app_nil_r, flat_map_app. cbn [flat_map].
      apply in_or_app. right. apply in_or_app. left. exact Hwarn.
  - intros options fs before after dir pre post e Hd Hs Ho Hdir Hlist.
    rewrite !ScanProjects_fst. rewrite Hdir. cbn [projectsDir].
    cbv zeta.
    set (fs' := {| projectsDir := _; todosDir := todosDir fs |}).
    rewrite <- (fullProjects_todosDir options fs fs') by reflexivity.
    unfold fullProjects. rewrite !flat_map_app. cbn [flat_map].
    unfold fullProject at 2 5 8 11.
    rewrite (candidate_ext options (filepath_Join [] "projects") dir
               {| peName := peName dir; peIsDir := peIsDir dir;
                  peReadDir := Ok (pre ++ post) |});
      [reflexivity | reflexivity | reflexivity |].
    cbn [peName peReadDir]. rewrite Hlist. apply Hscan; assumption.
Qed.
End EmptySessionFile.

Lemma no_messages_fails_one_file_only_witness :
  (forall line, In line [Fixture.badLine; EmptyString] ->
                @wellFormed Fixture.json line = false) /\
  fst (@ReadSession Fixture.json
         (Fixture.stream [Fixture.badLine; EmptyString]))
  = Err (ErrMsg "no messages found in file").
Proof.
  assert (H : forall line, In line [Fixture.badLine; EmptyString] ->
                           @wellFormed Fixture.json line = false).
  { intros line [H | [H | []]]; subst line; vm_compute; reflexivity. }
  split; [exact H |].
  exact (proj1 (@no_messages_fails_one_file_only Fixture.json
                  [Fixture.badLine; EmptyString] H)).
Defined.

(** ** The scenarios of the specification, on the test data *)

(** Scenario A: a user line and an assistant line with usage (5, 10). *)
Example scenario_two_lines :
  exists s : Session.t,
    @ReadSession Fixture.json
      (Fixture.stream [Fixture.userLine; Fixture.assistantLine]) = (Ok s, []) /\
    GetMessageCount s = 2 /\
    GetTokenUsage s = (5, 10) /\
    GetDuration s = 5 * 10 ^ 9.
Proof.
  eexists. split; [vm_compute; reflexivity |].
  repeat split; vm_compute; reflexivity.
Qed.

(** An empty line and a malformed third line between two records. *)
Example scenario_malformed_third_line :
  exists s : Session.t,
    @ReadSession Fixture.json
      (Fixture.stream [Fixture.userLine; EmptyString; Fixture.badLine;
                       Fixture.assistantLine])
    = (Ok s, [WarnParseLine 3 Fixture.syntaxError]) /\
    GetMessageCount s = 2.
Proof.
  eexists. split; vm_compute; reflexivity.
Qed.

(** Scenario E: three projects of one session each, a limit of two. *)
Example scenario_limit_two_of_three :
  exists projects : list Project.t,
    @ScanProjects Fixture.json (with_MaxSessions Fixture.noFilter 2)
                  Fixture.archive = (Ok projects, []) /\
    map Project.ID projects
    = ["-Users-test-project1"; "-Users-test-project2"] /\
    totalSessions projects = 2.
Proof.
  eexists. split; [vm_compute; reflexivity |].
  split; vm_compute; reflexivity.
Qed.

(** * Further properties of the models and readers *)

(** ** Counting messages *)

Lemma fold_count {A} (f : A -> bool) (l : list A) (c : Z) :
  fold_left (fun count x => if f x then count + 1 else count) l c
  = c + Z.of_nat (List.length (filter f l)).
Proof.
  revert c. induction l as [| x l IH]; intros c; simpl.
  - lia.
  - rewrite IH. destruct (f x); simpl List.length; lia.
Qed.

Lemma filter_three_way {A} (f g : A -> bool) (l : list A) :
  (forall x, f x && g x = false) ->
  (List.length (filter f l) + List.length (filter g l)
   + List.length (filter (fun x => negb (f x) && negb (g x)) l)
   = List.length l)%nat.
Proof.
  intros Hfg. induction l as [| x l IH]; simpl; [reflexivity |].
  specialize (Hfg x).
  destruct (f x), (g x); simpl in *; try discriminate; lia.
Qed.

(** X1.  The user count, the assistant count and the number of messages of
    any other type add up to the message count; so the first two never
    exceed it together, and they reach it exactly when every message is a
    user or an assistant message.  [AddMessage] raises the message count by
    one and the count of the message's own type with it. *)
Theorem message_counts_partition :
  forall s : Session.t,
    GetUserMessageCount s
    = Z.of_nat (List.length (filter isUser (Session.Messages s))) /\
    GetAssistantMessageCount s
    = Z.of_nat (List.length (filter isAssistant (Session.Messages s))) /\
    GetUserMessageCount s + GetAssistantMessageCount s
    + Z.of_nat (List.length
                  (filter (fun m => negb (isUser m) && negb (isAssistant m))
                          (Session.Messages s)))
    = GetMessageCount s /\
    (GetUserMessageCount s + GetAssistantMessageCount s = GetMessageCount s
     <-> Forall (fun m => isUser m = true \/ isAssistant m = true)
                (Session.Messages s)) /\
    (forall msg : Message.t,
        GetMessageCount (AddMessage s msg) = GetMessageCount s + 1 /\
        GetUserMessageCount (AddMessage s msg)
        = GetUserMessageCount s + (if isUser msg then 1 else 0) /\
        GetAssistantMessageCount (AddMessage s msg)
        = GetAssistantMessageCount s + (if isAssistant msg then 1 else 0)).
Proof.
  intros s.
  assert (Hu : forall t, GetUserMessageCount t
                         = Z.of_nat (List.length
                                       (filter isUser (Session.Messages t)))).
  { intros t. unfold GetUserMessageCount.
    rewrite (fold_count isUser). lia. }
  assert (Ha : forall t, GetAssistantMessageCount t
                         = Z.of_nat (List.length
                                       (filter isAssistant
                                               (Session.Messages t)))).
  { intros t. unfold GetAssistantMessageCount.
    rewrite (fold_count isAssistant). lia. }
  assert (Hdisj : forall m, isUser m && isAssistant m = false).
  { intros m. unfold isUser, isAssistant.
    destruct (String.eqb_spec (Message.Type_ m) "user") as [e | _];
      [rewrite e |]; reflexivity. }
  pose proof (filter_three_way isUser isAssistant (Session.Messages s) Hdisj)
    as H3.
  split; [apply Hu |]. split; [apply Ha |].
  split; [rewrite Hu, Ha; unfold GetMessageCount; lia |]. split.
  - rewrite Hu, Ha. unfold GetMessageCount. split.
    + intros Heq.
      assert (Hz : List.length
                     (filter (fun m => negb (isUser m) && negb (isAssistant m))
                             (Session.Messages s)) = O) by lia.
      apply length_zero_iff_nil in Hz. apply Forall_forall. intros m Hin.
      destruct (isUser m) eqn:Eu; [auto |].
      destruct (isAssistant m) eqn:Ea; [auto |].
      assert (Hin' : In m (filter (fun m => negb (isUser m)
                                            && negb (isAssistant m))
                                  (Session.Messages s))).
      { apply filter_In. rewrite Eu, Ea. auto. }
      rewrite Hz in Hin'. contradiction.
    + intros Hall.
      assert (Hz : filter (fun m => negb (isUser m) && negb (isAssistant m))
                          (Session.Messages s) = []).
      { clear H3. induction Hall as [| m l Hm _ IH]; [reflexivity |]. simpl.
        destruct Hm as [Hm | Hm]; rewrite Hm; simpl;
          [| rewrite andb_false_r]; exact IH. }
      rewrite Hz in H3. simpl in H3. lia.
  - intros msg. rewrite !Hu, !Ha. unfold GetMessageCount, AddMessage.
    cbn [Session.Messages]. rewrite !filter_app, !length_app.
    cbn [filter]. destruct (isUser msg), (isAssistant msg);
      simpl List.length; repeat split; lia.
Qed.

(** ** Bounds of a session, whatever the timestamps *)

Lemma latestOrZero_snoc (ts : list Time) (t : Time) :
  latestOrZero (ts ++ [t]) = Z.max (latestOrZero ts) t.
Proof.
  unfold latestOrZero. induction ts as [| a ts IH]; simpl.
  - lia.
  - rewrite IH. lia.
Qed.

Lemma latestOrZero_upper (ts : list Time) :
  0 <= latestOrZero ts /\ forall t, In t ts -> t <= latestOrZero ts.
Proof.
  unfold latestOrZero. induction ts as [| a ts [IH0 IH]]; simpl.
  - split; [lia | contradiction].
  - split; [lia |]. intros t [H | H]; [lia |]. specialize (IH t H). lia.
Qed.

Lemma built_EndTime (msgs : list Message.t) :
  Session.EndTime (built msgs) = latestOrZero (map Message.Timestamp msgs).
Proof.
  induction msgs as [| msg msgs IH] using rev_ind; [reflexivity |].
  rewrite built_snoc, map_app. cbn [map]. rewrite latestOrZero_snoc.
  unfold AddMessage; simpl. rewrite IH. unfold After.
  destruct (Z.ltb_spec (latestOrZero (map Message.Timestamp msgs))
                       (Message.Timestamp msg)); lia.
Qed.

Lemma built_StartTime_owned (msgs : list Message.t) :
  Session.StartTime (built msgs) = 0 \/
  In (Session.StartTime (built msgs)) (map Message.Timestamp msgs).
Proof.
  induction msgs as [| msg msgs IH] using rev_ind; [left; reflexivity |].
  rewrite built_snoc, map_app. unfold AddMessage; simpl.
  destruct (IsZero (Session.StartTime (built msgs))
            || Before (Message.Timestamp msg)
                      (Session.StartTime (built msgs))).
  - right. apply in_or_app. right. left. reflexivity.
  - destruct IH as [IH | IH]; [left; assumption |].
    right. apply in_or_app. left. assumption.
Qed.

(** X2.  Whatever the timestamps of the appended messages, [EndTime] is the
    latest of them and of the zero time, [StartTime] is the zero time or
    the timestamp of one of the messages, [StartTime] is never after
    [EndTime], and [GetDuration] is never negative. *)
Theorem session_bounds_ordered :
  forall msgs : list Message.t,
    let s := built msgs in
    Session.EndTime s = latestOrZero (timestamps s) /\
    (Session.StartTime s = 0 \/ In (Session.StartTime s) (timestamps s)) /\
    Session.StartTime s <= Session.EndTime s /\
    0 <= GetDuration s.
Proof.
  intros msgs s. subst s. unfold timestamps. rewrite built_Messages.
  pose proof (built_EndTime msgs) as He.
  pose proof (built_StartTime_owned msgs) as Hs.
  pose proof (latestOrZero_upper (map Message.Timestamp msgs)) as [H0 Hup].
  assert (Hle : Session.StartTime (built msgs)
                <= Session.EndTime (built msgs)).
  { rewrite He. destruct Hs as [Hs | Hs]; [rewrite Hs; exact H0 |].
    apply Hup. exact Hs. }
  split; [exact He |]. split; [exact Hs |]. split; [exact Hle |].
  unfold GetDuration.
  destruct (IsZero (Session.StartTime (built msgs))
            || IsZero (Session.EndTime (built msgs))); [lia |].
  unfold Sub, Before, minDuration, maxDuration.
  destruct (_ && _); [lia |].
  destruct (Z.ltb_spec (Session.EndTime (built msgs))
                       (Session.StartTime (built msgs))); lia.
Qed.

(** ** What [ReadSession] builds *)

Lemma AddMessage_with_ID (s : Session.t) (id : string) (msg : Message.t) :
  AddMessage (Session.with_ID s id) msg = Session.with_ID (AddMessage s msg) id.
Proof. reflexivity. Qed.

Lemma fold_AddMessage_with_ID (msgs : list Message.t) (s : Session.t)
      (id : string) :
  fold_left AddMessage msgs (Session.with_ID s id)
  = Session.with_ID (fold_left AddMessage msgs s) id.
Proof.
  revert s. induction msgs as [| msg msgs IH]; intros s; [reflexivity |].
  cbn [fold_left]. rewrite AddMessage_with_ID. apply IH.
Qed.

Lemma built_ProjectID (msgs : list Message.t) :
  Session.ProjectID (built msgs) = EmptyString.
Proof.
  induction msgs as [| msg msgs IH] using rev_ind; [reflexivity |].
  rewrite built_snoc. exact IH.
Qed.

Section ReadSessionBuilds.
Context {json : JSON}.

Lemma readLines_fold (ls : list string) (n : Z) (s : Session.t) :
  fst (readLines ls n s)
  = Session.with_ID (fold_left AddMessage (decodedRecords ls) s)
      (if String.eqb (Session.ID s) EmptyString
       then firstSessionID (records ls) else Session.ID s).
Proof.
  unfold decodedRecords.
  revert n s. induction ls as [| line rest IH]; intros n s.
  - simpl. destruct s as [id pid st en ms]. simpl.
    destruct (String.eqb_spec id EmptyString); subst; reflexivity.
  - unfold records. cbn [flat_map]. fold (records rest).
    destruct (GoStrings.len line =? 0) eqn:Hb.
    + rewrite readLines_blank by assumption. apply IH.
    + destruct (decodeLine line) as [msg | err] eqn:E.
      * rewrite (readLines_record _ _ _ _ msg) by assumption.
        cbn [fst app map fold_left]. rewrite IH, afterRecord_ID.
        rewrite firstSessionID_cons. unfold afterRecord.
        destruct (String.eqb_spec (Session.ID s) EmptyString) as [e | ne].
        -- cbn [andb].
           destruct (String.eqb_spec (Message.SessionID msg) EmptyString)
             as [e' | ne']; cbn [negb].
           ++ reflexivity.
           ++ rewrite AddMessage_with_ID, fold_AddMessage_with_ID.
              reflexivity.
        -- apply String.eqb_neq in ne. cbn [andb]. rewrite ?ne. reflexivity.
      * rewrite (readLines_malformed _ _ _ _ err) by assumption.
        cbn [fst]. apply IH.
Qed.

(** X3.  A session read from a file is the session obtained by appending
    the decoded records of its well-formed lines, in file order, to an
    empty session, under the identity of the file; it belongs to no project
    yet, it has at least one message, and when every record is dated after
    the zero time its bounds are the earliest and the latest timestamp of
    the file. *)
Theorem ReadSession_builds_from_records :
  forall (f : Stream) (s : Session.t),
    fst (ReadSession (Ok f)) = Ok s ->
    s = Session.with_ID (built (decodedRecords (lines f)))
                        (firstSessionID (records (lines f))) /\
    Session.Messages s = decodedRecords (lines f) /\
    Session.Messages s <> [] /\
    Session.ProjectID s = EmptyString /\
    (Forall (fun m => 0 < Message.Timestamp m) (decodedRecords (lines f)) ->
     Session.StartTime s = earliest (timestamps s) /\
     Session.EndTime s = latest (timestamps s)).
Proof.
  intros f s H.
  assert (Hne : Session.Messages s <> []).
  { revert H. unfold ReadSession, bind.
    destruct (readLines (lines f) 0 Session.zero) as [s0 w]. simpl.
    destruct (scanErr f); simpl; [discriminate |].
    destruct (Session.Messages s0) eqn:E; simpl; [discriminate |].
    intros H. inversion H. subst s. rewrite E. discriminate. }
  apply ReadSession_Ok_inv in H. destruct H as [Hs _].
  rewrite readLines_fold in Hs. cbn in Hs. fold (built (decodedRecords (lines f))) in Hs.
  assert (HM : Session.Messages s = decodedRecords (lines f)).
  { rewrite Hs. simpl. apply built_Messages. }
  split; [exact Hs |]. split; [exact HM |]. split; [exact Hne |].
  split; [rewrite Hs; simpl; apply built_ProjectID |].
  intros Hpos. unfold timestamps. rewrite HM, Hs. simpl.
  apply built_bounds; [rewrite <- HM; exact Hne | exact Hpos].
Qed.
End ReadSessionBuilds.

Lemma ReadSession_builds_from_records_witness :
  exists s : Session.t,
    fst (@ReadSession Fixture.json
           (Fixture.stream [Fixture.userLine; Fixture.assistantLine])) = Ok s /\
    Session.StartTime s = Fixture.t_10_00_00 /\
    Session.EndTime s = Fixture.t_10_00_05.
Proof.
  pose (f := {| lines := [Fixture.userLine; Fixture.assistantLine];
                scanErr := None |}).
  pose (s := fst (@readLines Fixture.json (lines f) 0 Session.zero)).
  assert (H : fst (@ReadSession Fixture.json (Ok f)) = Ok s)
    by (vm_compute; reflexivity).
  exists s. split; [exact H |].
  destruct (@ReadSession_builds_from_records Fixture.json f s H)
    as [_ [_ [_ [_ Hb]]]].
  destruct Hb as [Hs He].
  - vm_compute. repeat constructor.
  - rewrite Hs, He. split; vm_compute; reflexivity.
Defined.

(** ** Content decoding *)

Section ParseContentFacts.
Context {json : JSON}.

Ltac parse_cases m :=
  unfold ParseContent;
  cbn [Message.with_Content Message.Type_ Message.UserType Message.Message
       fst snd];
  destruct (String.eqb (Message.Type_ m) MessageTypeUser) eqn:Euser;
  [ destruct (String.eqb (Message.UserType m) "external") eqn:Eext;
    [ destruct (Unmarshal_userPayload (Message.Message m))
        as [[role raw] |] eqn:Epayload;
      [ destruct (Unmarshal_string raw) eqn:Estring;
        [ | destruct (Unmarshal_ToolResults raw) eqn:Etools ] | ] | ]
  | destruct (String.eqb (Message.Type_ m) MessageTypeAssistant) eqn:Easst;
    [ destruct (Unmarshal_AssistantMessage (Message.Message m)) eqn:Emsg
    | ] ];
  cbn [Message.with_Content Message.Type_ Message.UserType Message.Message
       fst snd].

(** X4.  [ParseContent] changes nothing of a message but its [Content];
    when it reports an error it leaves the message exactly as it was; and
    decoding a second time gives the same message and the same error as the
    first. *)
Theorem ParseContent_only_Content :
  forall m : Message.t,
    (forall c : Message.content,
        Message.with_Content (fst (ParseContent m)) c
        = Message.with_Content m c) /\
    (forall err : error,
        snd (ParseContent m) = Some err -> fst (ParseContent m) = m) /\
    ParseContent (fst (ParseContent m)) = ParseContent m.
Proof.
  intros m. split; [| split].
  - intros c. parse_cases m; reflexivity.
  - intros err. parse_cases m; intros H; try discriminate; reflexivity.
  - parse_cases m;
      rewrite ?Euser, ?Eext, ?Easst, ?Epayload, ?Estring, ?Etools, ?Emsg;
      reflexivity.
Qed.
End ParseContentFacts.

(** ** Streaming a file through a callback *)

Lemma fold_collect (l acc : list Message.t) :
  runCallback collect l acc = acc ++ l.
Proof.
  unfold runCallback.
  revert acc. induction l as [| m l IH]; intros acc; simpl.
  - rewrite app_nil_r. reflexivity.
  - rewrite IH, <- app_assoc. reflexivity.
Qed.

Section StreamingFacts.
Context {json : JSON} {St : Type}.
Variable callback : Message.t -> St -> St * option error.

Lemma decodedRecords_cons_blank (line : string) (rest : list string) :
  (GoStrings.len line =? 0) = true ->
  decodedRecords (line :: rest) = decodedRecords rest.
Proof.
  intros H. unfold decodedRecords, records. cbn [flat_map].
  rewrite H. reflexivity.
Qed.

Lemma decodedRecords_cons_malformed (line : string) (rest : list string)
      (err : error) :
  (GoStrings.len line =? 0) = false -> decodeLine line = Err err ->
  decodedRecords (line :: rest) = decodedRecords rest.
Proof.
  intros H E. unfold decodedRecords, records. cbn [flat_map].
  rewrite H, E. reflexivity.
Qed.

Lemma decodedRecords_cons_record (line : string) (rest : list string)
      (msg : Message.t) :
  (GoStrings.len line =? 0) = false -> decodeLine line = Ok msg ->
  decodedRecords (line :: rest)
  = fst (ParseContent msg) :: decodedRecords rest.
Proof.
  intros H E. unfold decodedRecords, records. cbn [flat_map].
  rewrite H, E. reflexivity.
Qed.

(** As long as the callback accepts the records of [a], streaming goes on
    with the lines after [a], and has warned as [ReadSession] does. *)
Lemma streamLines_accepted (a b : list string) (n : Z) (st : St)
      (s : Session.t) :
  (forall m st', In m (decodedRecords a) -> snd (callback m st') = None) ->
  streamLines callback (a ++ b) n st =
  (fst (streamLines callback b (n + Z.of_nat (List.length a))
                    (runCallback callback (decodedRecords a) st)),
   snd (readLines a n s)
   ++ snd (streamLines callback b (n + Z.of_nat (List.length a))
                       (runCallback callback (decodedRecords a) st))).
Proof.
  revert n st s. induction a as [| line rest IH]; intros n st s Hacc.
  - simpl. rewrite Z.add_0_r.
    destruct (streamLines callback b n st). reflexivity.
  - change ((line :: rest) ++ b) with (line :: (rest ++ b)).
    replace (n + Z.of_nat (List.length (line :: rest)))
      with (n + 1 + Z.of_nat (List.length rest))
      by (simpl List.length; lia).
    destruct (GoStrings.len line =? 0) eqn:Hb.
    + rewrite decodedRecords_cons_blank in * by assumption.
      rewrite readLines_blank by assumption.
      cbn [streamLines]. rewrite Hb. apply IH. assumption.
    + destruct (decodeLine line) as [msg | err] eqn:E.
      * rewrite (decodedRecords_cons_record _ _ msg) in * by assumption.
        rewrite (readLines_record _ _ _ _ msg) by assumption.
        cbn [streamLines]. rewrite Hb, E.
        pose proof (Hacc (fst (ParseContent msg)) st (or_introl eq_refl))
          as Hcb.
        pose proof (ParseContent_fields msg) as [Hu _].
        destruct (ParseContent msg) as [m' perr]. cbn [fst snd] in *.
        rewrite Hu.
        destruct (callback m' st) as [st' cerr] eqn:Ecb.
        cbn [snd] in Hcb. subst cerr.
        unfold runCallback. cbn [fold_left]. rewrite Ecb. cbn [fst].
        fold (runCallback callback (decodedRecords rest) st').
        rewrite (IH (n + 1) st' (afterRecord s msg))
          by (intros m st'' Hin; apply Hacc; right; exact Hin).
        destruct perr; unfold warn, ret; rewrite bind_pair;
          cbn [fst snd app]; rewrite ?app_assoc; reflexivity.
      * rewrite (decodedRecords_cons_malformed _ _ err) in * by assumption.
        rewrite (readLines_malformed _ _ _ _ err) by assumption.
        cbn [streamLines]. rewrite Hb, E. unfold warn. rewrite bind_pair.
        rewrite (IH (n + 1) st s) by assumption. reflexivity.
Qed.
End StreamingFacts.

Section StreamingResults.
Context {json : JSON} {St : Type}.

(** X5.  When the callback accepts every record, streaming hands it the
    decoded records of the well-formed lines, in file order and each once,
    and writes the warnings [ReadSession] writes for the same file; a read
    error of the stream is reported only after all of that; and a file
    without any record, which [ReadSession] refuses, streams without
    error and without a call. *)
Theorem StreamJSONLMessages_delivers_records :
  forall (callback : Message.t -> St -> St * option error)
         (ls : list string) (st : St),
    (forall m st', In m (decodedRecords ls) ->
                   snd (callback m st') = None) ->
    StreamJSONLMessages callback {| lines := ls; scanErr := None |} st
    = ((runCallback callback (decodedRecords ls) st, None),
       snd (ReadSession (Ok {| lines := ls; scanErr := None |}))) /\
    (forall err : error,
        StreamJSONLMessages callback {| lines := ls; scanErr := Some err |} st
        = ((runCallback callback (decodedRecords ls) st,
            Some (ErrWrap "error reading" err)),
           snd (ReadSession (Ok {| lines := ls; scanErr := None |})))) /\
    (decodedRecords ls = [] ->
     fst (ReadSession (Ok {| lines := ls; scanErr := None |}))
     = Err (ErrMsg "no messages found in file") /\
     fst (StreamJSONLMessages callback {| lines := ls; scanErr := None |} st)
     = (st, None)).
Proof.
  intros callback ls st Hacc.
  assert (Hrun : streamLines callback ls 0 st
                 = ((runCallback callback (decodedRecords ls) st, None),
                    snd (readLines ls 0 Session.zero))).
  { pose proof (streamLines_accepted callback ls [] 0 st Session.zero Hacc)
      as H.
    rewrite app_nil_r in H. rewrite H. cbn [streamLines ret fst snd].
    rewrite app_nil_r. reflexivity. }
  destruct (ReadSession_stream ls) as [Hfst Hsnd].
  assert (Hnone : StreamJSONLMessages callback
                    {| lines := ls; scanErr := None |} st
                  = ((runCallback callback (decodedRecords ls) st, None),
                     snd (ReadSession
                            (Ok {| lines := ls; scanErr := None |})))).
  { unfold StreamJSONLMessages. cbn [lines scanErr].
    rewrite Hrun, bind_pair. cbn [fst snd ret].
    rewrite app_nil_r, Hsnd. reflexivity. }
  split; [exact Hnone |]. split.
  - intros err. unfold StreamJSONLMessages. cbn [lines scanErr].
    rewrite Hrun, bind_pair. cbn [fst snd ret].
    rewrite app_nil_r, Hsnd. reflexivity.
  - intros Hempty. split.
    + rewrite Hfst, Hempty. reflexivity.
    + rewrite Hnone, Hempty. reflexivity.
Qed.

End StreamingResults.

Lemma StreamJSONLMessages_delivers_records_witness :
  (forall m st, snd (collect m st) = None) /\
  fst (fst (@StreamJSONLMessages Fixture.json _ collect
              {| lines := [Fixture.userLine; EmptyString; Fixture.badLine;
                           Fixture.assistantLine];
                 scanErr := None |} []))
  = @decodedRecords Fixture.json
      [Fixture.userLine; EmptyString; Fixture.badLine; Fixture.assistantLine].
Proof.
  split; [reflexivity |].
  destruct (@StreamJSONLMessages_delivers_records Fixture.json _ collect
              [Fixture.userLine; EmptyString; Fixture.badLine;
               Fixture.assistantLine] []
              (fun m st _ => eq_refl)) as [H _].
  rewrite H. cbn [fst]. rewrite fold_collect. reflexivity.
Defined.


(** ** What every returned project and session satisfies *)

Lemma In_firstn_In {A} (n : nat) (l : list A) (x : A) :
  In x (firstn n l) -> In x l.
Proof.
  intros H. rewrite <- (firstn_skipn n l). apply in_or_app. left. exact H.
Qed.

Lemma In_capProjects (k : nat) (ps : list Project.t) (p : Project.t) :
  In p (capProjects k ps) ->
  exists q : Project.t,
    In q ps /\
    Project.ID p = Project.ID q /\ Project.Path p = Project.Path q /\
    Project.EncodedPath p = Project.EncodedPath q /\
    (forall s, In s (Project.Sessions p) -> In s (Project.Sessions q)) /\
    ((0 < k)%nat -> Project.Sessions q <> [] -> Project.Sessions p <> []).
Proof.
  revert k. induction ps as [| a rest IH]; intros k Hin; [contradiction |].
  cbn [capProjects] in Hin.
  destruct (Nat.ltb_spec (List.length (Project.Sessions a)) k) as [Hlt | Hge].
  - destruct Hin as [Hin | Hin].
    + subst p. exists a. repeat split; auto. left. reflexivity.
    + destruct (IH _ Hin) as [q [Hq [Hid [Hpath [Henc [Hincl Hne]]]]]].
      exists q. repeat split; auto; [right; assumption |].
      intros _. apply Hne. lia.
  - destruct Hin as [Hin | []]. subst p. exists a.
    split; [left; reflexivity |]. repeat split; auto.
    + intros s Hs. simpl in Hs. apply In_firstn_In in Hs. exact Hs.
    + intros Hk Hne. simpl. destruct (Project.Sessions a); [congruence |].
      destruct k; [lia | discriminate].
Qed.

Section ReturnedProjects.
Context {json : JSON}.

Lemma In_scanProjectSessions (projectPath : Path) (projectID : string)
      (listing : list SessionEntry) (sessions : list Session.t)
      (s : Session.t) :
  fst (scanProjectSessions projectPath projectID (Ok listing)) = Ok sessions ->
  In s sessions ->
  exists (file : SessionEntry) (s0 : Session.t),
    In file listing /\ seIsDir file = false /\
    GoStrings.HasSuffix (seName file) ".jsonl" = true /\
    fst (ReadSession (seOpen file)) = Ok s0 /\
    s = Session.with_ProjectID s0 projectID.
Proof.
  unfold scanProjectSessions. rewrite fst_bind, sessionFiles_spec.
  cbn [fst ret app]. intros H Hin. injection H as H. subst sessions.
  apply in_flat_map in Hin. destruct Hin as [file [Hfile Hin]].
  unfold sessionOf in Hin.
  destruct (seIsDir file) eqn:Hd; cbn [orb] in Hin; [contradiction |].
  destruct (GoStrings.HasSuffix (seName file) ".jsonl") eqn:Hs;
    cbn [negb] in Hin; [| contradiction].
  destruct (ReadSession (seOpen file)) as [[s0 | err] w] eqn:Hr;
    cbn [fst] in Hin; [| contradiction].
  destruct Hin as [Hin | []]. exists file, s0. rewrite Hr. auto.
Qed.

Lemma In_fullProjects (options : ScanOptions) (fs : ClaudeDir)
      (projectsPath : Path) (entries : list ProjectEntry) (q : Project.t) :
  In q (fullProjects options fs projectsPath entries) ->
  exists (e : ProjectEntry) (listing : list SessionEntry),
    In e entries /\ peIsDir e = true /\ peReadDir e = Ok listing /\
    shouldProcessProject options (peName e) = true /\
    Project.ID q = peName e /\ Project.EncodedPath q = peName e /\
    Project.Path q = GoStrings.ReplaceAll (peName e) "-"%char "/" /\
    Project.Sessions q <> [] /\
    forall s, In s (Project.Sessions q) ->
      shouldIncludeSession options s = true /\
      Session.ProjectID s = peName e /\
      exists (file : SessionEntry) (s0 : Session.t),
        In file listing /\ seIsDir file = false /\
        GoStrings.HasSuffix (seName file) ".jsonl" = true /\
        fst (ReadSession (seOpen file)) = Ok s0 /\
        s = Session.with_ProjectID s0 (peName e).
Proof.
  unfold fullProjects. intros Hin. apply in_flat_map in Hin.
  destruct Hin as [e [He Hin]]. unfold fullProject, candidate in Hin.
  destruct (peIsDir e) eqn:Hd; cbn [negb] in Hin; [| contradiction].
  destruct (shouldProcessProject options (peName e)) eqn:Hp;
    cbn [negb] in Hin; [| contradiction].
  destruct (peReadDir e) as [listing | err] eqn:Hl;
    [| contradiction].
  destruct (fst (scanProjectSessions (filepath_Join projectsPath (peName e))
                                     (peName e) (Ok listing)))
    as [sessions | err] eqn:Hs; [| contradiction].
  destruct (filter (shouldIncludeSession options) sessions) as [| r rs] eqn:Hf;
    [contradiction |].
  destruct Hin as [Hq | []]. subst q. exists e, listing.
  cbn [Project.ID Project.EncodedPath Project.Path Project.Sessions].
  repeat split; auto; try discriminate.
  - apply in_map_iff in H. destruct H as [s1 [Hs1 Hin1]]. subst s.
    assert (Hin2 : In s1 (filter (shouldIncludeSession options) sessions))
      by (rewrite Hf; exact Hin1).
    apply filter_In in Hin2. exact (proj2 Hin2).
  - apply in_map_iff in H. destruct H as [s1 [Hs1 _]]. subst s. reflexivity.
  - apply in_map_iff in H. destruct H as [s1 [Hs1 Hin1]]. subst s.
    assert (Hin2 : In s1 (filter (shouldIncludeSession options) sessions))
      by (rewrite Hf; exact Hin1).
    apply filter_In in Hin2. destruct Hin2 as [Hin2 _].
    destruct (In_scanProjectSessions _ _ _ _ _ Hs Hin2)
      as [file [s0 [Hfile [Hfd [Hsuf [Hread Heq]]]]]].
    exists file, s0. subst s1. repeat split; auto.
Qed.

(** Every project [ScanProjects] returns comes from a project of the
    unlimited listing, with the same names and no other sessions. *)
Lemma In_ScanProjects (options : ScanOptions) (fs : ClaudeDir)
      (projects : list Project.t) (p : Project.t) :
  fst (ScanProjects options fs) = Ok projects -> In p projects ->
  exists (entries : list ProjectEntry) (q : Project.t),
    projectsDir fs = Entries entries /\
    In q (fullProjects options fs (filepath_Join [] "projects") entries) /\
    Project.ID p = Project.ID q /\ Project.Path p = Project.Path q /\
    Project.EncodedPath p = Project.EncodedPath q /\
    (forall s, In s (Project.Sessions p) -> In s (Project.Sessions q)) /\
    Project.Sessions p <> [].
Proof.
  intros H Hin. rewrite ScanProjects_fst in H.
  destruct (projectsDir fs) as [| err | entries]; try discriminate.
  cbv zeta in H. injection H as H. exists entries.
  pose proof (fullProjects_TodoLists options fs (filepath_Join [] "projects")
                entries) as HT.
  rewrite Forall_forall in HT.
  destruct (Z.ltb_spec 0 (MaxSessions options)) as [Hm | Hm].
  - subst projects. apply In_capProjects in Hin.
    destruct Hin as [q [Hq [Hid [Hpath [Henc [Hincl Hne]]]]]].
    exists q. repeat split; auto. apply Hne; [lia |]. apply HT. exact Hq.
  - subst projects. exists p. repeat split; auto. apply HT. exact Hin.
Qed.
End ReturnedProjects.

Section ReturnedProjectsResults.
Context {json : JSON}.

(** X7.  Every returned project is named after a directory entry of
    [projects] that passes the path filter: its path is its name with every
    hyphen turned into a slash, and when filter paths were given that path
    contains one of them. *)
Theorem ScanProjects_respects_path_filter :
  forall (options : ScanOptions) (fs : ClaudeDir)
         (projects : list Project.t) (p : Project.t),
    fst (ScanProjects options fs) = Ok projects ->
    In p projects ->
    (exists entries e,
        projectsDir fs = Entries entries /\ In e entries /\
        peIsDir e = true /\ peName e = Project.ID p) /\
    Project.EncodedPath p = Project.ID p /\
    Project.Path p = GoStrings.ReplaceAll (Project.ID p) "-"%char "/" /\
    (ProjectPaths options <> [] ->
     exists filterPath,
       In filterPath (ProjectPaths options) /\
       GoStrings.Contains (Project.Path p) filterPath = true).
Proof.
  intros options fs projects p H Hin.
  destruct (In_ScanProjects options fs projects p H Hin)
    as [entries [q [Hdir [Hq [Hid [Hpath [Henc _]]]]]]].
  destruct (In_fullProjects options fs _ entries q Hq)
    as [e [listing [He [Hd [_ [Hp [Hqid [Hqenc [Hqpath _]]]]]]]]].
  split; [exists entries, e; repeat split; auto; congruence |].
  split; [congruence |]. split; [congruence |].
  intros Hne. unfold shouldProcessProject in Hp.
  destruct (ProjectPaths options) as [| f fsx] eqn:Hpaths; [congruence |].
  cbn [List.length] in Hp.
  destruct (Z.eqb_spec (Z.of_nat (S (List.length fsx))) 0); [lia |].
  apply existsb_exists in Hp. destruct Hp as [filterPath [Hf Hc]].
  exists filterPath. split; [exact Hf |].
  rewrite Hpath, Hqpath. exact Hc.
Qed.

(** X8.  Every session of a returned project passes the date filter, that
    is, its [EndTime] lies within the bounds that were given, and it names
    the project that holds it. *)
Theorem ScanProjects_respects_date_filter :
  forall (options : ScanOptions) (fs : ClaudeDir)
         (projects : list Project.t) (p : Project.t) (s : Session.t),
    fst (ScanProjects options fs) = Ok projects ->
    In p projects -> In s (Project.Sessions p) ->
    match StartDate options with
    | Some start => start <= Session.EndTime s
    | None => True
    end /\
    match EndDate options with
    | Some end_ => Session.EndTime s <= end_
    | None => True
    end /\
    Session.ProjectID s = Project.ID p.
Proof.
  intros options fs projects p s H Hin Hs.
  destruct (In_ScanProjects options fs projects p H Hin)
    as [entries [q [Hdir [Hq [Hid [_ [_ [Hincl _]]]]]]]].
  destruct (In_fullProjects options fs _ entries q Hq)
    as [e [listing [_ [_ [_ [_ [Hqid [_ [_ [_ Hall]]]]]]]]]].
  destruct (Hall s (Hincl s Hs)) as [Hinc [Hpid _]].
  split; [| split; [| congruence]].
  - unfold shouldIncludeSession, Before in Hinc.
    destruct (StartDate options) as [start |]; [| trivial].
    destruct (Z.ltb_spec (Session.EndTime s) start); [discriminate | lia].
  - unfold shouldIncludeSession, Before, After in Hinc.
    destruct (EndDate options) as [end_ |]; [| trivial].
    destruct (match StartDate options with
              | Some start => Session.EndTime s <? start
              | None => false
              end); [discriminate |].
    destruct (Z.ltb_spec end_ (Session.EndTime s)); [discriminate | lia].
Qed.

(** X9.  No returned project is without sessions and no returned session
    is without messages: each session is what [ReadSession] made of one
    file named [*.jsonl] of the project's directory, now bearing the
    project's name. *)
Theorem ScanProjects_returns_no_empty_project :
  forall (options : ScanOptions) (fs : ClaudeDir)
         (projects : list Project.t) (p : Project.t),
    fst (ScanProjects options fs) = Ok projects ->
    In p projects ->
    Project.Sessions p <> [] /\
    forall s, In s (Project.Sessions p) ->
      Session.Messages s <> [] /\
      exists (entries : list ProjectEntry) (e : ProjectEntry)
             (listing : list SessionEntry) (file : SessionEntry)
             (s0 : Session.t),
        projectsDir fs = Entries entries /\ In e entries /\
        peName e = Project.ID p /\ peReadDir e = Ok listing /\
        In file listing /\ seIsDir file = false /\
        GoStrings.HasSuffix (seName file) ".jsonl" = true /\
        fst (ReadSession (seOpen file)) = Ok s0 /\
        s = Session.with_ProjectID s0 (Project.ID p).
Proof.
  intros options fs projects p H Hin.
  destruct (In_ScanProjects options fs projects p H Hin)
    as [entries [q [Hdir [Hq [Hid [_ [_ [Hincl Hne]]]]]]]].
  destruct (In_fullProjects options fs _ entries q Hq)
    as [e [listing [He [_ [Hl [_ [Hqid [_ [_ [_ Hall]]]]]]]]]].
  split; [exact Hne |]. intros s Hs.
  destruct (Hall s (Hincl s Hs))
    as [_ [_ [file [s0 [Hfile [Hfd [Hsuf [Hread Heq]]]]]]]].
  split.
  - subst s. cbn [Session.with_ProjectID Session.Messages].
    destruct (seOpen file) as [f | err]; [| discriminate].
    revert Hread. unfold ReadSession, bind.
    destruct (readLines (lines f) 0 Session.zero) as [s1 w]. simpl.
    destruct (scanErr f); simpl; [discriminate |].
    destruct (Session.Messages s1) eqn:E; simpl; [discriminate |].
    intros Hread. inversion Hread. subst s0. rewrite E. discriminate.
  - exists entries, e, listing, file, s0.
    repeat split; auto; congruence.
Qed.
End ReturnedProjectsResults.

Lemma FilterFixture_scan :
  fst (@ScanProjects Fixture.json FilterFixture.options Fixture.archive)
  = Ok FilterFixture.projects /\
  In FilterFixture.project FilterFixture.projects /\
  In FilterFixture.session (Project.Sessions FilterFixture.project).
Proof.
  split; [vm_compute; reflexivity |].
  split; vm_compute; left; reflexivity.
Qed.

Lemma ScanProjects_respects_path_filter_witness :
  In FilterFixture.project FilterFixture.projects /\
  GoStrings.Contains (Project.Path FilterFixture.project) "/Users/test/"
  = true.
Proof.
  destruct FilterFixture_scan as [H [Hin _]]. split; [exact Hin |].
  destruct (@ScanProjects_respects_path_filter Fixture.json
              FilterFixture.options Fixture.archive FilterFixture.projects
              FilterFixture.project H Hin) as [_ [_ [_ Hf]]].
  destruct Hf as [f [Hf Hc]]; [discriminate |].
  destruct Hf as [Hf | []]. rewrite Hf. exact Hc.
Defined.

Lemma ScanProjects_respects_date_filter_witness :
  In FilterFixture.session (Project.Sessions FilterFixture.project) /\
  Fixture.t_10_00_00 <= Session.EndTime FilterFixture.session
  <= Fixture.t_10_00_05.
Proof.
  destruct FilterFixture_scan as [H [Hin Hs]]. split; [exact Hs |].
  destruct (@ScanProjects_respects_date_filter Fixture.json
              FilterFixture.options Fixture.archive FilterFixture.projects
              FilterFixture.project FilterFixture.session H Hin Hs)
    as [Hlo [Hhi _]].
  split; [exact Hlo | exact Hhi].
Defined.

Lemma ScanProjects_returns_no_empty_project_witness :
  In FilterFixture.project FilterFixture.projects /\
  Project.Sessions FilterFixture.project <> [].
Proof.
  destruct FilterFixture_scan as [H [Hin _]]. split; [exact Hin |].
  exact (proj1 (@ScanProjects_returns_no_empty_project Fixture.json
                  FilterFixture.options Fixture.archive
                  FilterFixture.projects FilterFixture.project H Hin)).
Defined.

(** ** Hyphens and the path filter *)

Lemma occurs_prefix (c : ascii) (sub s : string) :
  String.prefix sub s = true -> occurs c sub = true -> occurs c s = true.
Proof.
  revert sub. induction s as [| b s IH]; intros [| a sub] Hp Ho;
    simpl in *; try discriminate.
  destruct (ascii_dec a b) as [e | n]; [| discriminate]. subst b.
  apply orb_true_iff in Ho. apply orb_true_iff.
  destruct Ho as [Ho | Ho]; [left; assumption |].
  right. apply (IH sub); assumption.
Qed.

Lemma occurs_Contains (c : ascii) (s sub : string) :
  GoStrings.Contains s sub = true -> occurs c sub = true -> occurs c s = true.
Proof.
  induction s as [| b s IH]; intros Hc Ho.
  - simpl in Hc. rewrite orb_false_r in Hc.
    apply (occurs_prefix c sub); assumption.
  - cbn [GoStrings.Contains] in Hc. apply orb_true_iff in Hc.
    destruct Hc as [Hc | Hc].
    + apply (occurs_prefix c sub); assumption.
    + simpl. rewrite (IH Hc Ho). apply orb_true_r.
Qed.

Lemma ReplaceAll_hyphen_free (s : string) :
  occurs "-"%char (GoStrings.ReplaceAll s "-"%char "/") = false.
Proof.
  induction s as [| c s IH]; [reflexivity |].
  cbn [GoStrings.ReplaceAll].
  destruct (Ascii.eqb c "-"%char) eqn:E; simpl; rewrite IH.
  - reflexivity.
  - rewrite E. reflexivity.
Qed.

Section HyphenFilter.
Context {json : JSON}.

(** X10.  A project path is matched after every hyphen of the directory
    name has become a slash, so a filter path that contains a hyphen
    matches no project: when all the filter paths given do, nothing is
    processed and the scan returns no project. *)
Theorem hyphenated_filter_matches_nothing :
  forall options : ScanOptions,
    ProjectPaths options <> [] ->
    Forall (fun f => occurs "-"%char f = true) (ProjectPaths options) ->
    (forall encodedPath,
        shouldProcessProject options encodedPath = false) /\
    (forall fs projects,
        fst (ScanProjects options fs) = Ok projects -> projects = []).
Proof.
  intros options Hne Hall.
  assert (Hno : forall encodedPath,
             shouldProcessProject options encodedPath = false).
  { intros encodedPath. unfold shouldProcessProject.
    destruct (ProjectPaths options) as [| f fsx] eqn:Hpaths; [congruence |].
    cbn [List.length].
    destruct (Z.eqb_spec (Z.of_nat (S (List.length fsx))) 0); [lia |].
    destruct (existsb _ (f :: fsx)) eqn:Hex; [| reflexivity].
    apply existsb_exists in Hex. destruct Hex as [g [Hg Hc]].
    rewrite Forall_forall in Hall.
    pose proof (occurs_Contains "-"%char _ _ Hc (Hall g Hg)) as Ho.
    rewrite ReplaceAll_hyphen_free in Ho. discriminate. }
  split; [exact Hno |].
  intros fs projects H. destruct projects as [| p rest]; [reflexivity |].
  destruct (In_ScanProjects options fs (p :: rest) p H (or_introl eq_refl))
    as [entries [q [_ [Hq _]]]].
  destruct (In_fullProjects options fs _ entries q Hq)
    as [e [listing [_ [_ [_ [Hp _]]]]]].
  rewrite Hno in Hp. discriminate.
Qed.
End HyphenFilter.

Lemma hyphenated_filter_matches_nothing_witness :
  @shouldProcessProject
    {| StartDate := None; EndDate := None;
       ProjectPaths := ["/Users/test/my-project"];
       IncludeTodos := false; IncludeShellSnapshots := false;
       MaxSessions := 0 |} "-Users-test-my-project" = false.
Proof.
  refine (proj1 (@hyphenated_filter_matches_nothing Fixture.json _ _ _) _).
  - discriminate.
  - repeat constructor.
Defined.

(** ** Aggregates of a project *)

Lemma sumZ_app (a b : list Z) : sumZ (a ++ b) = sumZ a + sumZ b.
Proof.
  unfold sumZ. induction a as [| x a IH]; simpl; [reflexivity |].
  rewrite IH. lia.
Qed.

Lemma GetTokenUsage_wrap (s : Session.t) :
  GetTokenUsage s
  = (GoInt.wrap (sumZ (map inputOf (usagesOf (Session.Messages s)))),
     GoInt.wrap (sumZ (map Usage.OutputTokens
                           (usagesOf (Session.Messages s))))).
Proof. unfold GetTokenUsage. apply (fold_addUsage _ 0 0). Qed.

Lemma fold_total_usage (sessions : list Session.t) (a b : Z) :
  fold_left (fun (acc : Z * Z) session =>
               let (input, output) := acc in
               let (sessionInput, sessionOutput) := GetTokenUsage session in
               (GoInt.add input sessionInput, GoInt.add output sessionOutput))
            sessions (GoInt.wrap a, GoInt.wrap b)
  = (GoInt.wrap
       (a + sumZ (map inputOf
                      (usagesOf (flat_map Session.Messages sessions)))),
     GoInt.wrap
       (b + sumZ (map Usage.OutputTokens
                      (usagesOf (flat_map Session.Messages sessions))))).
Proof.
  revert a b. induction sessions as [| s rest IH]; intros a b.
  - simpl. rewrite !Z.add_0_r. reflexivity.
  - cbn [fold_left flat_map]. rewrite GetTokenUsage_wrap.
    unfold GoInt.add. rewrite !wrap_add, IH.
    unfold usagesOf. rewrite flat_map_app, !map_app, !sumZ_app.
    f_equal; f_equal; lia.
Qed.

(** X11.  The token usage of a project is the token usage of the session
    one would get by putting the messages of all its sessions together, in
    the arithmetic of [int]; adding a session adds that session's usage. *)
Theorem GetTotalTokenUsage_merges_sessions :
  forall p : Project.t,
    GetTotalTokenUsage p
    = GetTokenUsage (Session.mk EmptyString EmptyString 0 0 (allMessages p)) /\
    GetTotalTokenUsage p
    = (GoInt.wrap (sumZ (map inputOf (usagesOf (allMessages p)))),
       GoInt.wrap (sumZ (map Usage.OutputTokens
                             (usagesOf (allMessages p))))) /\
    (forall s : Session.t,
        GetTotalTokenUsage (AddSession p s)
        = (GoInt.add (fst (GetTotalTokenUsage p)) (fst (GetTokenUsage s)),
           GoInt.add (snd (GetTotalTokenUsage p)) (snd (GetTokenUsage s)))).
Proof.
  intros p.
  assert (H : forall q, GetTotalTokenUsage q
                        = (GoInt.wrap (sumZ (map inputOf
                                                 (usagesOf (allMessages q)))),
                           GoInt.wrap (sumZ (map Usage.OutputTokens
                                                 (usagesOf (allMessages q)))))).
  { intros q. unfold GetTotalTokenUsage, allMessages.
    apply (fold_total_usage _ 0 0). }
  split; [| split].
  - rewrite H, GetTokenUsage_wrap. reflexivity.
  - apply H.
  - intros s. rewrite !H, GetTokenUsage_wrap. cbn [fst snd].
    unfold GoInt.add. rewrite !wrap_add.
    unfold allMessages, AddSession. cbn [Project.Sessions].
    rewrite flat_map_app. cbn [flat_map Session.with_ProjectID
      Session.Messages]. rewrite app_nil_r.
    unfold usagesOf. rewrite flat_map_app, !map_app, !sumZ_app.
    reflexivity.
Qed.

Lemma fold_total_messages (sessions : list Session.t) (a : Z) :
  fold_left (fun total session => GoInt.add total (GetMessageCount session))
            sessions (GoInt.wrap a)
  = GoInt.wrap
      (a + Z.of_nat (List.length (flat_map Session.Messages sessions))).
Proof.
  revert a. induction sessions as [| s rest IH]; intros a.
  - simpl. rewrite Z.add_0_r. reflexivity.
  - cbn [fold_left flat_map]. unfold GoInt.add. rewrite wrap_add_l, IH.
    unfold GetMessageCount. rewrite length_app. f_equal. lia.
Qed.

(** X12.  The message total of a project is the number of messages of all
    its sessions together, in the arithmetic of [int], hence exactly that
    number whenever it fits; the session count is the number of sessions,
    and [AddSession] raises it by one, appends the session last and stamps
    it with the project's name. *)
Theorem project_counts :
  forall p : Project.t,
    GetTotalMessages p
    = GoInt.wrap (Z.of_nat (List.length (allMessages p))) /\
    (inRange (Z.of_nat (List.length (allMessages p))) ->
     GetTotalMessages p = Z.of_nat (List.length (allMessages p))) /\
    (forall s : Session.t,
        GetSessionCount (AddSession p s) = GetSessionCount p + 1 /\
        Project.Sessions (AddSession p s)
        = Project.Sessions p
          ++ [Session.with_ProjectID s (Project.ID p)] /\
        GetTotalMessages (AddSession p s)
        = GoInt.add (GetTotalMessages p) (GetMessageCount s)).
Proof.
  intros p.
  assert (H : forall q, GetTotalMessages q
                        = GoInt.wrap (Z.of_nat (List.length (allMessages q)))).
  { intros q. unfold GetTotalMessages, allMessages.
    apply (fold_total_messages _ 0). }
  split; [apply H |]. split.
  - intros Hr. rewrite H. apply wrap_inRange. exact Hr.
  - intros s. split; [| split].
    + unfold GetSessionCount, AddSession. cbn [Project.Sessions].
      rewrite length_app. simpl List.length. lia.
    + reflexivity.
    + rewrite !H. unfold GoInt.add. rewrite wrap_add_l.
      unfold allMessages, AddSession, GetMessageCount.
      cbn [Project.Sessions]. rewrite flat_map_app, length_app.
      cbn [flat_map Session.with_ProjectID Session.Messages].
      rewrite app_nil_r. f_equal. lia.
Qed.

(** ** The time range of a project *)

Lemma fold_widen_snoc (sessions : list Session.t) (s : Session.t)
      (range : Time * Time) :
  fold_left widen (sessions ++ [s]) range
  = widen (fold_left widen sessions range) s.
Proof. rewrite fold_left_app. reflexivity. Qed.

Lemma fold_widen_end (sessions : list Session.t) :
  snd (fold_left widen sessions (0, 0))
  = latestOrZero (map Session.EndTime sessions).
Proof.
  induction sessions as [| s sessions IH] using rev_ind; [reflexivity |].
  rewrite fold_widen_snoc, map_app. cbn [map]. rewrite latestOrZero_snoc.
  destruct (fold_left widen sessions (0, 0)) as [start end_].
  cbn [snd] in IH. subst end_. cbn [widen snd]. unfold After.
  destruct (Z.ltb_spec (latestOrZero (map Session.EndTime sessions))
                       (Session.EndTime s)); lia.
Qed.

Lemma fold_widen_start (sessions : list Session.t) :
  sessions <> [] ->
  Forall (fun s => 0 < Session.StartTime s) sessions ->
  fst (fold_left widen sessions (0, 0))
  = earliest (map Session.StartTime sessions).
Proof.
  induction sessions as [| s sessions IH] using rev_ind; [congruence |].
  intros _ Hall. apply Forall_app in Hall. destruct Hall as [Hrest Hs].
  inversion Hs as [| ? ? Hpos _]; subst.
  rewrite fold_widen_snoc, map_app. cbn [map].
  destruct sessions as [| s0 sessions'].
  - simpl. reflexivity.
  - specialize (IH ltac:(discriminate) Hrest).
    change (map Session.StartTime (s0 :: sessions'))
      with (Session.StartTime s0 :: map Session.StartTime sessions') in *.
    rewrite earliest_snoc.
    assert (Hp : 0 < earliest (Session.StartTime s0
                               :: map Session.StartTime sessions')).
    { apply earliest_positive; [discriminate |].
      rewrite <- map_cons. apply Forall_map. assumption. }
    destruct (fold_left widen (s0 :: sessions') (0, 0)) as [start end_].
    cbn [fst] in IH. subst start. cbn [widen fst].
    set (e := earliest _) in *. unfold IsZero, Before.
    destruct (Z.eqb_spec e 0); [lia |]. simpl.
    destruct (Z.ltb_spec (Session.StartTime s) e); lia.
Qed.

(** X13.  A project without sessions has the zero time range.  Otherwise
    the end of the range is the latest [EndTime] of its sessions, or the
    zero time if none is later, and when every session starts after the
    zero time the start of the range is the earliest [StartTime]. *)
Theorem GetTimeRange_spans_sessions :
  forall p : Project.t,
    (Project.Sessions p = [] -> GetTimeRange p = (0, 0)) /\
    snd (GetTimeRange p) = latestOrZero (map Session.EndTime
                                             (Project.Sessions p)) /\
    (Project.Sessions p <> [] ->
     Forall (fun s => 0 < Session.StartTime s) (Project.Sessions p) ->
     fst (GetTimeRange p) = earliest (map Session.StartTime
                                          (Project.Sessions p))).
Proof.
  intros p. unfold GetTimeRange.
  destruct (Project.Sessions p) as [| s rest] eqn:E.
  - repeat split; try reflexivity; congruence.
  - replace (Z.of_nat (List.length (s :: rest)) =? 0) with false
      by (symmetry; apply Z.eqb_neq; simpl List.length; lia).
    split; [discriminate |]. split.
    + apply fold_widen_end.
    + intros Hne Hall. apply fold_widen_start; assumption.
Qed.

(** ** Decoded paths and project names *)

Lemma rev_string_acc (s acc : string) :
  GoStrings.rev_string acc s
  = String.append (GoStrings.rev_string EmptyString s) acc.
Proof.
  revert acc. induction s as [| c s IH]; intros acc; [reflexivity |].
  cbn [GoStrings.rev_string]. rewrite IH, (IH (String c EmptyString)).
  clear IH. induction (GoStrings.rev_string EmptyString s) as [| d r IHr];
    simpl; [reflexivity | rewrite IHr; reflexivity].
Qed.

Lemma rev_string_append (a b acc : string) :
  GoStrings.rev_string acc (String.append a b)
  = GoStrings.rev_string (GoStrings.rev_string acc a) b.
Proof.
  revert acc. induction a as [| c a IH]; intros acc; simpl; auto.
Qed.

Lemma rev_string_involutive (s : string) :
  GoStrings.rev_string EmptyString (GoStrings.rev_string EmptyString s) = s.
Proof.
  induction s as [| c s IH]; [reflexivity |].
  cbn [GoStrings.rev_string].
  rewrite (rev_string_acc s (String c EmptyString)), rev_string_append, IH.
  reflexivity.
Qed.

Lemma occurs_append (c : ascii) (a b : string) :
  occurs c (String.append a b) = occurs c a || occurs c b.
Proof.
  induction a as [| d a IH]; simpl; [reflexivity |].
  rewrite IH, orb_assoc. reflexivity.
Qed.

Lemma occurs_rev_string (c : ascii) (s : string) :
  occurs c (GoStrings.rev_string EmptyString s) = occurs c s.
Proof.
  induction s as [| d s IH]; [reflexivity |].
  cbn [GoStrings.rev_string].
  rewrite (rev_string_acc s (String d EmptyString)), occurs_append, IH.
  simpl. rewrite orb_false_r, orb_comm. reflexivity.
Qed.

Lemma upToSlash_append (r rest : string) :
  occurs "/"%char r = false ->
  GoFilepath.upToSlash (String.append r (String "/"%char rest)) = r.
Proof.
  induction r as [| c r IH]; intros H; [reflexivity |].
  simpl in *. apply orb_false_iff in H. destruct H as [Hc Hr].
  rewrite Hc, IH by assumption. reflexivity.
Qed.

Lemma Base_last_element (dir name : string) :
  name <> EmptyString -> occurs "/"%char name = false ->
  GoFilepath.Base (String.append dir (String "/"%char name)) = name.
Proof.
  intros Hne Hfree. unfold GoFilepath.Base.
  destruct (String.eqb_spec (String.append dir (String "/"%char name))
                            EmptyString) as [e | _].
  { destruct dir; discriminate. }
  rewrite rev_string_append. cbn [GoStrings.rev_string].
  rewrite (rev_string_acc name
             (String "/"%char (GoStrings.rev_string EmptyString dir))).
  pose proof (occurs_rev_string "/"%char name) as Hr. rewrite Hfree in Hr.
  pose proof (rev_string_involutive name) as Hinv.
  destruct (GoStrings.rev_string EmptyString name) as [| c r] eqn:E.
  { simpl in Hinv. congruence. }
  assert (Hc : Ascii.eqb c "/"%char = false).
  { simpl in Hr. apply orb_false_iff in Hr. tauto. }
  cbn [String.append GoFilepath.dropSlashes]. rewrite Hc.
  change (String c (String.append r (String "/"%char
            (GoStrings.rev_string EmptyString dir))))
    with (String.append (String c r)
            (String "/"%char (GoStrings.rev_string EmptyString dir))).
  rewrite upToSlash_append by exact Hr.
  destruct (String.eqb_spec (String c r) EmptyString); [discriminate |].
  exact Hinv.
Qed.

Lemma ReplaceAll_append (a b : string) (old : ascii) (new : string) :
  GoStrings.ReplaceAll (String.append a b) old new
  = String.append (GoStrings.ReplaceAll a old new)
                  (GoStrings.ReplaceAll b old new).
Proof.
  induction a as [| c a IH]; [reflexivity |].
  cbn [String.append GoStrings.ReplaceAll]. rewrite IH.
  destruct (Ascii.eqb c old); [| reflexivity].
  clear IH.
  generalize (GoStrings.ReplaceAll a old new) (GoStrings.ReplaceAll b old new).
  intros x y. induction new as [| d new IHn]; simpl;
    [reflexivity | rewrite IHn; reflexivity].
Qed.

Lemma ReplaceAll_absent (s : string) (old : ascii) (new : string) :
  occurs old s = false -> GoStrings.ReplaceAll s old new = s.
Proof.
  induction s as [| c s IH]; intros H; [reflexivity |].
  simpl in H. apply orb_false_iff in H. destruct H as [Hc Hs].
  cbn [GoStrings.ReplaceAll]. rewrite Hc, IH by assumption. reflexivity.
Qed.

(** X14.  A new project keeps the directory name as its identity and
    starts empty; its path never contains a hyphen, so a directory name
    and the same name with a hyphen written as a slash give the same path;
    and when the name ends in a hyphen followed by a non-empty part free
    of hyphens and slashes, that part is the project's name. *)
Theorem NewProject_decodes_hyphens :
  forall encodedPath : string,
    let p := NewProject encodedPath in
    (Project.ID p = encodedPath /\ Project.EncodedPath p = encodedPath /\
     Project.Sessions p = [] /\ Project.TodoLists p = []) /\
    occurs "-"%char (Project.Path p) = false /\
    (forall a b : string,
        Project.Path (NewProject (String.append a (String "-"%char b)))
        = Project.Path (NewProject (String.append a (String "/"%char b)))) /\
    (forall dir name : string,
        encodedPath = String.append dir (String "-"%char name) ->
        name <> EmptyString ->
        occurs "-"%char name = false -> occurs "/"%char name = false ->
        GetProjectName p = name).
Proof.
  intros encodedPath p. subst p. split; [repeat split |].
  split; [apply ReplaceAll_hyphen_free |]. split.
  - intros a b. unfold NewProject. cbn [Project.Path].
    rewrite !ReplaceAll_append. reflexivity.
  - intros dir name Henc Hne Hh Hs. subst encodedPath.
    unfold GetProjectName, NewProject. cbn [Project.Path].
    rewrite ReplaceAll_append. cbn [GoStrings.ReplaceAll].
    replace (Ascii.eqb "-"%char "-"%char) with true by reflexivity.
    rewrite (ReplaceAll_absent name) by exact Hh.
    cbn [String.append]. apply Base_last_element; assumption.
Qed.

(** The names of the repository's own test (project_test.go). *)
Example project_names_of_the_tests :
  Project.Path (NewProject "-Users-test_user-src-myproject")
  = "/Users/test_user/src/myproject" /\
  GetProjectName (NewProject "-Users-test_user-src-myproject") = "myproject" /\
  GetProjectName (NewProject "-Users-test_user-Downloads-OUTPUT") = "OUTPUT".
Proof. repeat split. Qed.

(** ** Todo lists *)



Section TodoListReading.
Context {json : JSON}.

(** X16.  For a todo file the scanner considers (a file named [*.json]
    whose name splits on [-agent-] in two), scanning a [todos] directory
    that holds just that file gives what [ReadTodoList] returns for it
    under the identifiers derived from its name: that very list when it
    has todos, nothing when it is empty, and nothing when the read fails. *)
Theorem ReadTodoList_agrees_with_scanner :
  forall (e : TodoEntry) (sessionID part1 projectID : string)
         (others : DirState ProjectEntry),
    teIsDir e = false ->
    GoStrings.HasSuffix (teName e) ".json" = true ->
    GoStrings.Split (teName e) "-agent-" = [sessionID; part1] ->
    fst (scanProjectTodos {| projectsDir := others; todosDir := Entries [e] |}
                          projectID)
    = Ok match ReadTodoList (teReadFile e) sessionID
                            (GoStrings.TrimSuffix part1 ".json") with
         | Ok tl => match TodoList.Todos tl with
                    | [] => []
                    | _ :: _ => [tl]
                    end
         | Err _ => []
         end.
Proof.
  intros e sessionID part1 projectID others Hd Hs Hsp.
  rewrite scanProjectTodos_fst. cbn [todosDir].
  unfold todoListsOf. cbn [todosDir flat_map].
  unfold ReadTodoList, todoListOf. rewrite Hd, Hs, Hsp. cbn [negb].
  destruct (TodoReader_Read (teReadFile e)) as [[| todo todos] | err];
    reflexivity.
Qed.
End TodoListReading.

Lemma ReadTodoList_agrees_with_scanner_witness :
  fst (@scanProjectTodos Fixture.json
         {| projectsDir := NotExist;
            todosDir :=
              Entries [Fixture.todoFile "session1-agent-agent1.json"
                                        Fixture.oneTodo] |} "any")
  = Ok [TodoList.mk "session1" "agent1"
          [Todo.mk "1" "Test todo" "pending" "high"]].
Proof.
  etransitivity.
  - apply (@ReadTodoList_agrees_with_scanner Fixture.json
             (Fixture.todoFile "session1-agent-agent1.json" Fixture.oneTodo)
             "session1" "agent1.json" "any" NotExist);
      vm_compute; reflexivity.
  - vm_compute. reflexivity.
Defined.

(** ** The sessions a scan returns *)

Lemma allSessions_flat_map {A} (f : A -> list Project.t) (l : list A) :
  allSessions (flat_map f l) = flat_map (fun x => allSessions (f x)) l.
Proof.
  unfold allSessions. induction l as [| x l IH]; [reflexivity |].
  cbn [flat_map]. rewrite flat_map_app, IH. reflexivity.
Qed.

Lemma filter_all {A} (f : A -> bool) (l : list A) :
  (forall x, f x = true) -> filter f l = l.
Proof.
  intros H. induction l as [| x l IH]; simpl; [reflexivity |].
  rewrite H, IH. reflexivity.
Qed.

Section ReturnedSessions.
Context {json : JSON}.

Lemma allSessions_fullProject (options : ScanOptions) (fs : ClaudeDir)
      (e : ProjectEntry) :
  allSessions (fullProject options fs (filepath_Join [] "projects") e)
  = offered options e.
Proof.
  unfold fullProject, candidate, offered.
  destruct (peIsDir e); cbn [negb andb]; [| reflexivity].
  destruct (shouldProcessProject options (peName e)); cbn [negb];
    [| reflexivity].
  destruct (peReadDir e) as [listing | err]; [| reflexivity].
  destruct (fst (scanProjectSessions _ (peName e) (Ok listing)))
    as [sessions | err] eqn:Hs; [| reflexivity].
  assert (Hid : forall s, In s (filter (shouldIncludeSession options) sessions)
                          -> Session.with_ProjectID s (peName e) = s).
  { intros s Hin. apply filter_In in Hin. destruct Hin as [Hin _].
    destruct (In_scanProjectSessions _ _ _ _ _ Hs Hin)
      as [file [s0 [_ [_ [_ [_ Heq]]]]]].
    subst s. reflexivity. }
  destruct (filter (shouldIncludeSession options) sessions) as [| r rs];
    [reflexivity |].
  unfold allSessions. cbn [flat_map Project.Sessions]. rewrite app_nil_r.
  rewrite (map_ext_in _ (fun s => s) _ Hid). apply map_id.
Qed.

Lemma allSessions_fullProjects (options : ScanOptions) (fs : ClaudeDir)
      (entries : list ProjectEntry) :
  allSessions (fullProjects options fs (filepath_Join [] "projects") entries)
  = flat_map (offered options) entries.
Proof.
  unfold fullProjects. rewrite allSessions_flat_map.
  apply flat_map_ext. intros e. apply allSessions_fullProject.
Qed.

(** X17.  The sessions a scan returns, project after project, are the
    sessions offered by the entries of [projects] in listing order (every
    session read from a directory that passes the path filter, provided it
    passes the date filter), all of them without a session limit and the
    first [MaxSessions] of them under one: no session that passes the
    filters is left out except by the limit. *)
Theorem ScanProjects_returns_offered_sessions :
  forall (options : ScanOptions) (fs : ClaudeDir)
         (projects : list Project.t),
    fst (ScanProjects options fs) = Ok projects ->
    exists entries : list ProjectEntry,
      projectsDir fs = Entries entries /\
      allSessions projects
      = if 0 <? MaxSessions options
        then firstn (Z.to_nat (MaxSessions options))
                    (flat_map (offered options) entries)
        else flat_map (offered options) entries.
Proof.
  intros options fs projects H. rewrite ScanProjects_fst in H.
  destruct (projectsDir fs) as [| err | entries]; try discriminate.
  exists entries. split; [reflexivity |].
  cbv zeta in H. injection H as H. subst projects.
  destruct (0 <? MaxSessions options).
  - rewrite capProjects_allSessions, allSessions_fullProjects. reflexivity.
  - apply allSessions_fullProjects.
Qed.

(** X18.  A scanner made without options filters nothing: it returns every
    session read from every directory of [projects] that can be listed, in
    listing order, and attaches no todo list. *)
Theorem NewScanner_without_options_keeps_everything :
  forall (fs : ClaudeDir) (projects : list Project.t),
    fst (ScanProjects (NewScanner None) fs) = Ok projects ->
    (exists entries : list ProjectEntry,
        projectsDir fs = Entries entries /\
        allSessions projects
        = flat_map
            (fun e =>
               if peIsDir e then
                 match fst (scanProjectSessions
                              (filepath_Join (filepath_Join [] "projects")
                                             (peName e))
                              (peName e) (peReadDir e)) with
                 | Ok sessions => sessions
                 | Err _ => []
                 end
               else []) entries) /\
    Forall (fun p => Project.TodoLists p = []) projects.
Proof.
  intros fs projects H. rewrite ScanProjects_fst in H.
  destruct (projectsDir fs) as [| err | entries]; try discriminate.
  cbv zeta in H. cbn [NewScanner MaxSessions] in H.
  change (0 <? 0) with false in H. cbv iota in H.
  injection H as H. subst projects. split.
  - exists entries. split; [reflexivity |].
    rewrite allSessions_fullProjects. apply flat_map_ext. intros e.
    unfold offered. destruct (peIsDir e); [| reflexivity].
    cbn [andb]. change (shouldProcessProject (NewScanner None) (peName e))
      with true. cbv iota.
    destruct (fst (scanProjectSessions _ (peName e) (peReadDir e)));
      [| reflexivity].
    apply filter_all. reflexivity.
  - pose proof (fullProjects_TodoLists (NewScanner None) fs
                  (filepath_Join [] "projects") entries) as HT.
    revert HT. apply Forall_impl. intros p [Hp _]. exact Hp.
Qed.
End ReturnedSessions.

Lemma ScanProjects_returns_offered_sessions_witness :
  exists projects : list Project.t,
    fst (@ScanProjects Fixture.json (with_MaxSessions Fixture.noFilter 2)
                       Fixture.archive) = Ok projects /\
    allSessions projects
    = firstn 2 (flat_map (@offered Fixture.json
                            (with_MaxSessions Fixture.noFilter 2))
                         Fixture.threeProjects).
Proof.
  pose (o := with_MaxSessions Fixture.noFilter 2).
  pose (projects :=
          match fst (@ScanProjects Fixture.json o Fixture.archive) with
          | Ok ps => ps
          | Err _ => []
          end).
  assert (H : fst (@ScanProjects Fixture.json o Fixture.archive)
              = Ok projects) by (vm_compute; reflexivity).
  exists projects. split; [exact H |].
  destruct (@ScanProjects_returns_offered_sessions Fixture.json o
              Fixture.archive projects H) as [entries [Hdir Hall]].
  cbn [Fixture.archive projectsDir] in Hdir. injection Hdir as Hdir.
  subst entries. exact Hall.
Defined.

Lemma NewScanner_without_options_keeps_everything_witness :
  exists projects : list Project.t,
    fst (@ScanProjects Fixture.json (NewScanner None) Fixture.archive)
    = Ok projects /\
    List.length (allSessions projects) = 3%nat /\
    Forall (fun p => Project.TodoLists p = []) projects.
Proof.
  pose (projects :=
          match fst (@ScanProjects Fixture.json (NewScanner None)
                                   Fixture.archive) with
          | Ok ps => ps
          | Err _ => []
          end).
  assert (H : fst (@ScanProjects Fixture.json (NewScanner None)
                                 Fixture.archive)
              = Ok projects) by (vm_compute; reflexivity).
  exists projects. split; [exact H |].
  split; [vm_compute; reflexivity |].
  exact (proj2 (@NewScanner_without_options_keeps_everything Fixture.json
                  Fixture.archive projects H)).
Defined.

Section ReadSessionOutcomes.
Context {json : JSON}.

Lemma records_some (ls : list string) :
  records ls <> [] <->
  exists line, In line ls /\ wellFormed line = true.
Proof.
  split.
  - intros H. destruct (existsb wellFormed ls) eqn:E.
    + apply existsb_exists in E. exact E.
    + exfalso. apply H. apply records_none. intros line Hin.
      destruct (wellFormed line) eqn:W; [| reflexivity].
      assert (existsb wellFormed ls = true)
        by (apply existsb_exists; exists line; auto).
      congruence.
  - intros [line [Hin W]] Hnil.
    unfold records in Hnil.
    assert (Hall : forall l, In l ls ->
                     (if GoStrings.len l =? 0 then []
                      else match decodeLine l with
                           | Ok msg => [msg]
                           | Err _ => []
                           end) = []).
    { intros l Hl. destruct (GoStrings.len l =? 0) eqn:Hb; [reflexivity |].
      destruct (decodeLine l) as [msg | err] eqn:Hd; [| reflexivity].
      exfalso.
      assert (Hm : In msg (flat_map
                             (fun line0 =>
                                if GoStrings.len line0 =? 0 then []
                                else match decodeLine line0 with
                                     | Ok msg0 => [msg0]
                                     | Err _ => []
                                     end) ls)).
      { apply in_flat_map. exists l. split; [exact Hl |].
        rewrite Hb, Hd. left. reflexivity. }
      rewrite Hnil in Hm. exact Hm. }
    specialize (Hall line Hin). unfold wellFormed in W.
    destruct (GoStrings.len line =? 0); [discriminate |].
    destruct (decodeLine line); discriminate.
Qed.

Lemma ReadSession_cases (f : Stream) :
  fst (ReadSession (Ok f))
  = match scanErr f with
    | Some err => Err (ErrWrap "error reading file" err)
    | None =>
        match records (lines f) with
        | [] => Err (ErrMsg "no messages found in file")
        | _ :: _ => Ok (fst (readLines (lines f) 0 Session.zero))
        end
    end /\
  snd (ReadSession (Ok f)) = snd (readLines (lines f) 0 Session.zero).
Proof.
  unfold ReadSession.
  pose proof (readLines_Messages (lines f) 0 Session.zero) as HM.
  simpl in HM. unfold bind.
  destruct (readLines (lines f) 0 Session.zero) as [s w]. simpl in *.
  destruct (scanErr f) as [err |]; simpl.
  - rewrite app_nil_r. auto.
  - rewrite HM. unfold decodedRecords.
    destruct (records (lines f)); simpl; rewrite app_nil_r; auto.
Qed.

(** X19.  [ReadSession] returns a session exactly when the file opens, the
    stream is read to its end without error, and at least one line is well
    formed.  It fails in three ways only: with the wrapped open error, with
    the wrapped read error (also when records were read before it), and
    with "no messages found in file".  The warnings of the lines are
    written in every case where the file opens. *)
Theorem ReadSession_outcomes :
  forall file : Result Stream,
    ((exists s, fst (ReadSession file) = Ok s) <->
     (exists f, file = Ok f /\ scanErr f = None /\
                exists line, In line (lines f) /\ wellFormed line = true)) /\
    (forall e : error,
        fst (ReadSession file) = Err e ->
        (exists err, file = Err err /\
                     e = ErrWrap "failed to open file" err) \/
        (exists f err, file = Ok f /\ scanErr f = Some err /\
                       e = ErrWrap "error reading file" err) \/
        (exists f, file = Ok f /\ scanErr f = None /\
                   (forall line, In line (lines f) ->
                                 wellFormed line = false) /\
                   e = ErrMsg "no messages found in file")) /\
    (forall (f : Stream) (err : error),
        file = Ok f -> scanErr f = Some err ->
        fst (ReadSession file) = Err (ErrWrap "error reading file" err)) /\
    (forall f : Stream,
        file = Ok f ->
        snd (ReadSession file)
        = snd (ReadSession (Ok {| lines := lines f; scanErr := None |}))) /\
    (forall err : error, file = Err err -> snd (ReadSession file) = []).
Proof.
  intros [f | oerr].
  - destruct (ReadSession_cases f) as [Hf Hs].
    destruct (ReadSession_cases {| lines := lines f; scanErr := None |})
      as [_ Hs0]. cbn [lines] in Hs0.
    repeat split.
    + intros [s H]. rewrite Hf in H. exists f.
      destruct (scanErr f); [discriminate |].
      repeat split. apply records_some.
      destruct (records (lines f)); [discriminate | discriminate].
    + intros [f' [E [Hn Hl]]]. injection E as E. subst f'.
      rewrite Hf, Hn. apply records_some in Hl.
      destruct (records (lines f)); [contradiction |]. eauto.
    + intros e H. rewrite Hf in H. right.
      destruct (scanErr f) as [err |] eqn:Hn.
      * left. exists f, err. injection H as H. auto.
      * right. exists f.
        destruct (records (lines f)) eqn:Hr; [| discriminate].
        injection H as H. repeat split; auto.
        intros line Hin. destruct (wellFormed line) eqn:W; [| reflexivity].
        exfalso.
        assert (Hne : records (lines f) <> [])
          by (apply records_some; exists line; auto).
        contradiction.
    + intros f' err E Hn. injection E as E. subst f'.
      rewrite Hf, Hn. reflexivity.
    + intros f' E. injection E as E. subst f'. rewrite Hs, Hs0. reflexivity.
    + intros err E. discriminate.
  - repeat split.
    + intros [s H]. discriminate.
    + intros [f [E _]]. discriminate.
    + intros e H. left. exists oerr. cbn in H. injection H as H. auto.
    + intros f err E. discriminate.
    + intros f E. discriminate.
Qed.
End ReadSessionOutcomes.
